(** * Authentication and authorization core of the media processor API

    A shallow embedding of the JavaScript sources that make up the
    authentication core:

    - [services/cognito-service.js] (two revisions: the base service with
      [authenticateUser], [verifyToken], [generateJWT]; and the MFA / groups
      revision with [verifyMFA], [updateUserRole], ...),
    - [services/mfa-service.js],
    - [services/aws-config.js] (the command classes it exports as
      [CognitoCommands]),
    - [services/cognitoGroups.js] (the in-process group store and the
      [requireGroup] middleware),
    - the Express applications (the "complete" application with
      [authorizeGroup] and the MFA login route, [app-cloud.js], and the
      local application with its SQLite login).

    JavaScript values are modelled by [JS.value]; the [jsonwebtoken] package
    by [Jwt]; the Cognito client by the [Client] class. *)

From Stdlib Require Import ZArith Lia.
From stdpp Require Import base option list strings pretty gmap.

Set Warnings "-register-all".

Local Open Scope string_scope.
Local Open Scope Z_scope.

(** ** JavaScript values *)

Module JS.

(** The JSON-shaped fragment of JavaScript values the sources handle.
    Numbers are the integers (all numbers in the modelled code are whole
    seconds or HTTP statuses). *)
Inductive value :=
| Undefined
| Null
| Bool (b : bool)
| Num (n : Z)
| Str (s : string)
| Arr (items : list value)
| Obj (props : list (string * value)).

Definition value_eq_dec : forall v w : value, {v = w} + {v <> w}.
Proof.
  fix IH 1.
  decide equality.
  - apply bool_eq_dec.
  - apply Z.eq_dec.
  - apply String.string_dec.
  - apply (List.list_eq_dec IH).
  - apply List.list_eq_dec. intros [k x] [k' y].
    destruct (String.string_dec k k') as [->|Hk]; [|right; congruence].
    destruct (IH x y) as [->|Hx]; [left; reflexivity|right; congruence].
Defined.

#[export] Instance value_eq : EqDecision value := value_eq_dec.

(** ToBoolean. *)
Definition truthy (v : value) : bool :=
  match v with
  | Undefined | Null => false
  | Bool b => b
  | Num n => negb (n =? 0)
  | Str s => negb (String.eqb s "")
  | Arr _ | Obj _ => true
  end.

(** [a || b] and [!a]. *)
Definition either (a b : value) : value := if truthy a then a else b.
Definition falsy (a : value) : bool := negb (truthy a).

(** Property lookup in an object literal: the first binding of the key. *)
Fixpoint lookup_prop (props : list (string * value)) (k : string) : value :=
  match props with
  | [] => Undefined
  | (k', v) :: rest => if String.eqb k' k then v else lookup_prop rest k
  end.

(** [v.k] / [v[k]]: objects answer with the property, everything else
    with [undefined]. The only modelled access whose base can be nullish
    is the optional chain [req.user?.username], which is [undefined] then
    as well. *)
Definition get (v : value) (k : string) : value :=
  match v with
  | Obj props => lookup_prop props k
  | _ => Undefined
  end.

(** [x === s] for a string [s]. *)
Definition is_str (s : string) (x : value) : bool :=
  match x with
  | Str t => String.eqb t s
  | _ => false
  end.

(** [Object.keys]. *)
Definition keys (v : value) : list string :=
  match v with
  | Obj props => map fst props
  | _ => []
  end.

(** What survives [JSON.parse (JSON.stringify v)]: properties whose value
    is [undefined] are omitted, [undefined] array items become [null]. *)
Fixpoint json (v : value) : value :=
  match v with
  | Arr items =>
      Arr (map (fun x => match x with Undefined => Null | _ => json x end) items)
  | Obj props =>
      Obj ((fix go (ps : list (string * value)) : list (string * value) :=
              match ps with
              | [] => []
              | (k, Undefined) :: rest => go rest
              | (k, x) :: rest => (k, json x) :: go rest
              end) props)
  | _ => v
  end.

(** *** ToNumber on strings

    A string stands for its UTF-8 bytes. The value of a numeric literal is
    kept exact, as [m * 10 ^ e]: the rounding of a literal to a double is
    not modelled. *)

Inductive number :=
| NaN
| Infinite (negative : bool)
| Finite (m e : Z).

Definition code (c : Ascii.ascii) : Z := Z.of_N (Ascii.N_of_ascii c).

(** A leading white space or line terminator character: what follows it.
    These are TAB, LF, VT, FF, CR, the space, and (in UTF-8) U+00A0,
    U+1680, U+2000 to U+200A, U+2028, U+2029, U+202F, U+205F, U+3000 and
    U+FEFF. *)
Definition blank (s : string) : option string :=
  match s with
  | String a r1 =>
      let x := code a in
      if (x =? 9) || (x =? 10) || (x =? 11) || (x =? 12) || (x =? 13) || (x =? 32)
      then Some r1
      else
        match r1 with
        | String b r2 =>
            let y := code b in
            if (x =? 194) && (y =? 160) then Some r2
            else
              match r2 with
              | String c r3 =>
                  let z := code c in
                  if (x =? 225) && (y =? 154) && (z =? 128)
                     || (x =? 226) && (y =? 128)
                        && ((128 <=? z) && (z <=? 138)
                            || (z =? 168) || (z =? 169) || (z =? 175))
                     || (x =? 226) && (y =? 129) && (z =? 159)
                     || (x =? 227) && (y =? 128) && (z =? 128)
                     || (x =? 239) && (y =? 187) && (z =? 191)
                  then Some r3
                  else None
              | EmptyString => None
              end
        | EmptyString => None
        end
  | EmptyString => None
  end.

Fixpoint skip_blanks (fuel : nat) (s : string) : string :=
  match fuel with
  | O => s
  | S n =>
      match blank s with
      | Some rest => skip_blanks n rest
      | None => s
      end
  end.

Definition trim_start (s : string) : string := skip_blanks (String.length s) s.

(** The characters before the first blank, and the rest from that blank
    on. *)
Fixpoint until_blank (s : string) : string * string :=
  match s with
  | EmptyString => (EmptyString, EmptyString)
  | String c rest =>
      match blank s with
      | Some _ => (EmptyString, s)
      | None => let (b, t) := until_blank rest in (String c b, t)
      end
  end.

(** The value of a digit, hexadecimal digits included. *)
Definition digit (c : Ascii.ascii) : option Z :=
  let x := code c in
  if (48 <=? x) && (x <=? 57) then Some (x - 48)
  else if (97 <=? x) && (x <=? 102) then Some (x - 87)
  else if (65 <=? x) && (x <=? 70) then Some (x - 55)
  else None.

(** The longest prefix of digits in a base, read after [acc]: the number
    read, how many digits it took, and what follows them. *)
Fixpoint digits (base : Z) (s : string) (acc count : Z) : Z * Z * string :=
  match s with
  | EmptyString => (acc, count, s)
  | String c rest =>
      match digit c with
      | Some d =>
          if d <? base then digits base rest (base * acc + d) (count + 1)
          else (acc, count, s)
      | None => (acc, count, s)
      end
  end.

(** The digits of [0x...], [0o...] and [0b...]. *)
Definition non_decimal (base : Z) (s : string) : number :=
  let '(n, count, rest) := digits base s 0 0 in
  if (0 <? count) && String.eqb rest "" then Finite n 0 else NaN.

(** An optional exponent part that ends the literal [m * 10 ^ e]. *)
Definition exponent (s : string) (m e : Z) : number :=
  match s with
  | EmptyString => Finite m e
  | String c r =>
      if (code c =? 101) || (code c =? 69) then
        let '(negative, r') :=
          match r with
          | String d r'' =>
              if code d =? 45 then (true, r'')
              else if code d =? 43 then (false, r'')
              else (false, r)
          | EmptyString => (false, r)
          end in
        let '(x, count, rest) := digits 10 r' 0 0 in
        if (0 <? count) && String.eqb rest "" then
          Finite m (if negative then e - x else e + x)
        else NaN
      else NaN
  end.

(** [Infinity], [12], [12.], [12.5], [.5], each of the last four with an
    optional exponent. *)
Definition unsigned_decimal (s : string) : number :=
  if String.eqb s "Infinity" then Infinite false
  else
    let '(i, ni, r1) := digits 10 s 0 0 in
    match r1 with
    | EmptyString => if ni =? 0 then NaN else Finite i 0
    | String c r2 =>
        if code c =? 46 then
          let '(m, nf, r3) := digits 10 r2 i 0 in
          if ni + nf =? 0 then NaN else exponent r3 m (- nf)
        else if ni =? 0 then NaN
        else exponent r1 i 0
    end.

Definition negate (x : number) : number :=
  match x with
  | NaN => NaN
  | Infinite negative => Infinite (negb negative)
  | Finite m e => Finite (- m) e
  end.

(** A numeric literal without surrounding blanks; the empty string is 0.
    Only a decimal literal takes a sign. *)
Definition literal (s : string) : number :=
  match s with
  | EmptyString => Finite 0 0
  | String c r =>
      if code c =? 45 then negate (unsigned_decimal r)
      else if code c =? 43 then unsigned_decimal r
      else
        match r with
        | String d r' =>
            if code c =? 48 then
              if (code d =? 120) || (code d =? 88) then non_decimal 16 r'
              else if (code d =? 111) || (code d =? 79) then non_decimal 8 r'
              else if (code d =? 98) || (code d =? 66) then non_decimal 2 r'
              else unsigned_decimal s
            else unsigned_decimal s
        | EmptyString => unsigned_decimal s
        end
  end.

(** ToNumber on strings: blanks around the literal are dropped, anything
    else that is not a numeric literal is NaN. *)
Definition str_to_number (s : string) : number :=
  let (b, t) := until_blank (trim_start s) in
  if String.eqb (trim_start t) "" then literal b else NaN.

(** [items.join (sep)] on strings. *)
Fixpoint join (sep : string) (items : list string) : string :=
  match items with
  | [] => ""
  | [x] => x
  | x :: rest => x ++ sep ++ join sep rest
  end.

(** [String (v)], as in a template literal. Array items are joined by
    commas, [null] and [undefined] items being empty. Numbers print with
    all their digits, as JavaScript prints integers below 10^21. *)
Fixpoint to_string (v : value) : string :=
  match v with
  | Undefined => "undefined"
  | Null => "null"
  | Bool b => if b then "true" else "false"
  | Num n => pretty n
  | Str s => s
  | Arr items =>
      join "," (map (fun x => match x with
                              | Undefined | Null => ""
                              | _ => to_string x
                              end) items)
  | Obj _ => "[object Object]"
  end.

(** ToNumber. Arrays convert through their string form, objects are
    NaN. *)
Definition to_number (v : value) : number :=
  match v with
  | Undefined => NaN
  | Null => Finite 0 0
  | Bool b => Finite (if b then 1 else 0) 0
  | Num n => Finite n 0
  | Str s => str_to_number s
  | Arr _ => str_to_number (to_string v)
  | Obj _ => NaN
  end.

(** [x < n] for a number [x] and an integer [n]. *)
Definition lt (x : number) (n : Z) : bool :=
  match x with
  | NaN => false
  | Infinite negative => negative
  | Finite m e => if 0 <=? e then m * 10 ^ e <? n else m <? n * 10 ^ (- e)
  end.

(** [v < n] for a number [n]: false when [v] converts to NaN. *)
Definition lt_num (v : value) (n : Z) : bool := lt (to_number v) n.

End JS.

Import JS.

(** [Array.prototype.includes] / [String.prototype.includes] with a string
    argument. *)
Fixpoint str_includes (needle hay : string) : bool :=
  String.prefix needle hay ||
  match hay with
  | EmptyString => false
  | String _ rest => str_includes needle rest
  end.

Definition arr_includes (items : list value) (s : string) : bool :=
  existsb (is_str s) items.

(** The string items of an array of strings. *)
Definition Strs (l : list string) : value := Arr (map Str l).

(** An [Error] object: its [name] and [message]. *)
Record error := Error { name : string; message : string }.

(** ** The [jsonwebtoken] package

    The three calls the sources make: [jwt.sign (payload, secret)],
    [jwt.decode (token)] and [jwt.verify (token, secret, callback)], all
    without options (HS256). The MAC is symbolic: a signature records the
    key and the claims it was computed over, and checks by equality. *)

Module Jwt.

Record signature := Mac { mac_key : string; mac_body : list (string * value) }.

#[export] Instance signature_eq : EqDecision signature.
Proof. solve_decision. Defined.

(** A token string is either the compact serialisation of a signed claims
    object, or any other string. *)
Inductive token :=
| NotJws (raw : string)
| Jws (claims : list (string * value)) (sig : signature).

(** The claims as they are serialised into the token. *)
Definition serialised (payload : list (string * value)) : list (string * value) :=
  match json (Obj payload) with
  | Obj body => body
  | _ => []
  end.

Definition sign (payload : list (string * value)) (secret : string) : token :=
  let body := serialised payload in
  Jws body (Mac secret body).

(** [jwt.decode]: the claims, without any check; [null] when the string
    is not a token. *)
Definition decode (t : token) : value :=
  match t with
  | NotJws _ => Null
  | Jws claims _ => Obj claims
  end.

Definition signed_with (secret : string) (t : token) : bool :=
  match t with
  | NotJws _ => false
  | Jws claims sig => bool_decide (sig = Mac secret claims)
  end.

Inductive failure :=
| Malformed          (* JsonWebTokenError: jwt malformed / invalid token *)
| InvalidSignature   (* JsonWebTokenError: invalid signature *)
| InvalidClaim       (* JsonWebTokenError: invalid nbf value / invalid exp value *)
| NotActive          (* NotBeforeError: jwt not active *)
| Expired.           (* TokenExpiredError: jwt expired *)

(** [jwt.verify] at clock reading [clock] (seconds): structure, then
    signature, then [nbf], then [exp]; a token is expired as soon as the
    clock has reached [exp]. *)
Definition verify (t : token) (secret : string) (clock : Z) : failure + value :=
  match t with
  | NotJws _ => inl Malformed
  | Jws claims sig =>
      if negb (signed_with secret t) then inl InvalidSignature else
      let payload := Obj claims in
      match get payload "nbf" with
      | Undefined =>
          match get payload "exp" with
          | Undefined => inr payload
          | Num e => if e <=? clock then inl Expired else inr payload
          | _ => inl InvalidClaim
          end
      | Num n =>
          if clock <? n then inl NotActive else
          match get payload "exp" with
          | Undefined => inr payload
          | Num e => if e <=? clock then inl Expired else inr payload
          | _ => inl InvalidClaim
          end
      | _ => inl InvalidClaim
      end
  end.

End Jwt.

(** ** The process environment: [process.env.JWT_SECRET] and [Date.now ()]. *)

Record env := Env {
  env_JWT_SECRET : option string;   (* process.env.JWT_SECRET *)
  Date_now : Z;                     (* milliseconds since the epoch *)
  Date_toISOString : string         (* new Date ().toISOString () *)
}.

(** [process.env.JWT_SECRET || 'your-secret-key'] *)
Definition JWT_SECRET (e : env) : string :=
  match env_JWT_SECRET e with
  | Some s => if String.eqb s "" then "your-secret-key" else s
  | None => "your-secret-key"
  end.

(** [Math.floor (Date.now () / 1000)] *)
Definition now_seconds (e : env) : Z := Date_now e / 1000.

(** ** HTTP plumbing shared by the Express applications *)

(** An answer: status, JSON body, and the body's [token] property when it
    has one (a token is kept apart from the JSON values). *)
Record response := Response { status : Z; body : value; token : option Jwt.token }.

(** What a middleware does with a request: hand it on ([next ()]), answer,
    or throw. *)
Inductive step :=
| Next (user : value)        (* next (), with [req.user] as it then is *)
| Reply (r : response)
| Throws (err : error).

Definition json_error (st : Z) (msg : string) : step :=
  Reply (Response st (Obj [("error", Str msg)]) None).

(** [authenticateToken], identical in the three applications. [bearer] is
    [authHeader && authHeader.split (' ')[1]]: [None] when that expression
    is [undefined]. *)
Definition authenticateToken (e : env) (bearer : option Jwt.token) : step :=
  match bearer with
  | None | Some (Jwt.NotJws "") => json_error 401 "Access token required"
  | Some token =>
      match Jwt.verify token (JWT_SECRET e) (now_seconds e) with
      | inl _ => json_error 403 "Invalid token"
      | inr user =>
          if JS.falsy (get user "username") then
            json_error 401 "Username missing in token"
          else Next user
      end
  end.

(** [authorizeGroup (requiredGroup)] of the complete application, applied
    to [req.user]. [includes] exists on arrays and strings only. *)
Definition authorizeGroup (requiredGroup : string) (user : value) : step :=
  let groups := JS.either (get user "cognito:groups") (Arr []) in
  match groups with
  | Arr items =>
      if negb (arr_includes items requiredGroup) then
        json_error 403 "Access denied: insufficient group privileges"
      else Next user
  | Str s =>
      if negb (str_includes requiredGroup s) then
        json_error 403 "Access denied: insufficient group privileges"
      else Next user
  | _ => Throws (Error "TypeError" "groups.includes is not a function")
  end.

(** [obj.k = v] on an object: the property is replaced where it stands, or
    added at the end. Other values are left alone. *)
Fixpoint assign_prop (props : list (string * value)) (k : string) (v : value)
  : list (string * value) :=
  match props with
  | [] => [(k, v)]
  | (k', x) :: rest =>
      if String.eqb k' k then (k', v) :: rest else (k', x) :: assign_prop rest k v
  end.

Definition assign (o : value) (k : string) (v : value) : value :=
  match o with
  | Obj props => Obj (assign_prop props k v)
  | _ => o
  end.

(** ** [services/cognitoGroups.js]: the in-process group store *)

Module CognitoGroups.

(** [userGroupMembership]: a [Map] from user name to the array of the
    user's group names. *)
Abbreviation store := (gmap string (list string)).

(** The module's initial table: [admin -> ['Admin']], [user -> ['User']]. *)
Definition initial : store :=
  <["user" := ["User"]]> (<["admin" := ["Admin"]]> ∅).

(** [userGroupMembership.get (key)]: only a string can be a key of this
    table. *)
Definition Map_get (m : store) (key : value) : option (list string) :=
  match key with
  | Str s => m !! s
  | _ => None
  end.

Definition getUserGroups (m : store) (username : value) : list string :=
  default [] (Map_get m username).

Definition isUserInGroup (m : store) (username : value) (groupName : string) : bool :=
  bool_decide (groupName ∈ getUserGroups m username).

Definition addUserToGroup (m : store) (username groupName : string) : store :=
  let userGroups : list string := default [] (m !! username) in
  if bool_decide (groupName ∈ userGroups) then m
  else <[username := (userGroups ++ [groupName])%list]> m.

Definition removeUserFromGroup (m : store) (username groupName : string) : store :=
  let userGroups : list string := default [] (m !! username) in
  <[username := filter (λ group, group ≠ groupName) userGroups]> m.

(** The argument of [requireGroup]: one group name or an array of them. *)
Inductive allowed :=
| Single (group : string)
| Several (groups : list string).

Definition groupsArray (a : allowed) : list string :=
  match a with
  | Single g => [g]
  | Several gs => gs
  end.

(** [requireGroup (allowedGroups)] applied to [req.user] ([undefined]
    when no authentication ran). Nothing in the [try] block can throw, so
    the 500 answer of the [catch] is never produced. *)
Definition requireGroup (a : allowed) (m : store) (user : value) : step :=
  let username := get user "username" in
  if JS.falsy username then json_error 401 "Authentication required"
  else
    let userGroups : list string := getUserGroups m username in
    let hasRequiredGroup :=
      existsb (λ group, bool_decide (group ∈ userGroups)) (groupsArray a) in
    if negb hasRequiredGroup then
      Reply (Response 403 (Obj [
        ("error", Str ("Insufficient permissions. Required groups: "
                         ++ join ", " (groupsArray a)));
        ("userGroups", Strs userGroups) ]) None)
    else Next (assign user "groups" (Strs userGroups)).

(** The stores the module can be in: the initial table, changed only
    through the two exported updates. *)
Inductive reachable : store → Prop :=
| reach_initial : reachable initial
| reach_add m u g : reachable m → reachable (addUserToGroup m u g)
| reach_remove m u g : reachable m → reachable (removeUserFromGroup m u g).

End CognitoGroups.

(** ** The Cognito client

    [cognitoClient.send (command)] resolves to the command's output object
    or rejects with an error object. The directory behind the client is an
    external service: it is a parameter, given by its state and by what it
    answers to a command in a state. *)

Record command := Command { command_name : string; input : value }.

Definition AdminInitiateAuthCommand := Command "AdminInitiateAuth".
Definition AdminRespondToAuthChallengeCommand := Command "AdminRespondToAuthChallenge".
Definition VerifySoftwareTokenCommand := Command "VerifySoftwareToken".
Definition AdminSetUserMFAPreferenceCommand := Command "AdminSetUserMFAPreference".
Definition AdminUpdateUserAttributesCommand := Command "AdminUpdateUserAttributes".
Definition AdminCreateUserCommand := Command "AdminCreateUser".
Definition AdminGetUserCommand := Command "AdminGetUser".
Definition AdminDeleteUserCommand := Command "AdminDeleteUser".
Definition AdminConfirmSignUpCommand := Command "AdminConfirmSignUp".
Definition AssociateSoftwareTokenCommand := Command "AssociateSoftwareToken".
Definition SetUserMFAPreferenceCommand := Command "SetUserMFAPreference".

(** [CognitoCommands], as [services/aws-config.js] exports it: an object
    with these eleven command classes. *)
Definition CognitoCommands : list (string * (value → command)) :=
  [ ("AdminCreateUserCommand", AdminCreateUserCommand);
    ("AdminConfirmSignUpCommand", AdminConfirmSignUpCommand);
    ("AdminInitiateAuthCommand", AdminInitiateAuthCommand);
    ("AdminGetUserCommand", AdminGetUserCommand);
    ("AdminUpdateUserAttributesCommand", AdminUpdateUserAttributesCommand);
    ("AdminDeleteUserCommand", AdminDeleteUserCommand);
    ("AdminRespondToAuthChallengeCommand", AdminRespondToAuthChallengeCommand);
    ("AssociateSoftwareTokenCommand", AssociateSoftwareTokenCommand);
    ("VerifySoftwareTokenCommand", VerifySoftwareTokenCommand);
    ("SetUserMFAPreferenceCommand", SetUserMFAPreferenceCommand);
    ("AdminSetUserMFAPreferenceCommand", AdminSetUserMFAPreferenceCommand) ].

(** [CognitoCommands[key]]: [None] is [undefined]. *)
Fixpoint property {A} (props : list (string * A)) (key : string) : option A :=
  match props with
  | [] => None
  | (k, x) :: rest => if String.eqb k key then Some x else property rest key
  end.

Class Client (St : Type) := client_send : command → St → (error + value) * St.

(** [cognitoConfig], from the configuration module. *)
Record config := Config { userPoolId : string; clientId : string }.

(** The service's asynchronous methods, as computations over the directory
    state that may throw. Every command sent is also recorded, in order. *)
Section Effects.
Context {St : Type} `{!Client St}.

Record world := World { directory : St; sent : list command }.

Definition M (A : Type) : Type := world → (error + A) * world.

Definition ret {A} (a : A) : M A := λ w, (inr a, w).

Definition throw {A} (err : error) : M A := λ w, (inl err, w).

Definition bind {A B} (m : M A) (k : A → M B) : M B :=
  λ w, match m w with
       | (inr a, w') => k a w'
       | (inl err, w') => (inl err, w')
       end.

(** [try { m } catch (error) { h error }] *)
Definition try_catch {A} (m : M A) (h : error → M A) : M A :=
  λ w, match m w with
       | (inl err, w') => h err w'
       | r => r
       end.

(** [await cognitoClient.send (c)] *)
Definition send (c : command) : M value :=
  λ w, let (r, d) := client_send c (directory w) in
       (r, World d (sent w ++ [c])%list).

End Effects.

Arguments world St : clear implicits.
Arguments M St A : clear implicits.

Notation "'let!' x ':=' m 'in' k" := (bind m (λ x, k))
  (at level 10, x name, m at level 100, k at level 200, only parsing).
Notation "'await!' m 'in' k" := (bind m (λ _, k))
  (at level 10, m at level 100, k at level 200, only parsing).

(** [new CognitoCommands.key (input)]: a class that [CognitoCommands] does
    not have is [undefined], and [new] throws. *)
Definition new_command {St} (key : string) (input : value) : M St command :=
  match property CognitoCommands key with
  | Some constructor => ret (constructor input)
  | None =>
      throw (Error "TypeError" ("CognitoCommands." ++ key ++ " is not a constructor"))
  end.

(** ** Built-ins used by the remaining service methods *)

(** [encodeURIComponent (s)]. A string stands for its UTF-8 bytes: the
    unreserved characters (letters, digits and [- _ . ! ~ * ' ( )]) are
    kept, every other byte becomes [%XX] in upper-case hexadecimal. *)
Definition unreserved (c : Ascii.ascii) : bool :=
  let n := Ascii.N_of_ascii c in
  ((65 <=? n) && (n <=? 90) || (97 <=? n) && (n <=? 122) || (48 <=? n) && (n <=? 57)
   || (n =? 45) || (n =? 95) || (n =? 46) || (n =? 33) || (n =? 126)
   || (n =? 42) || (n =? 39) || (n =? 40) || (n =? 41))%N.

Definition hex_digit (n : N) : Ascii.ascii :=
  Ascii.ascii_of_N (if (n <? 10)%N then 48 + n else 55 + n)%N.

Definition percent : Ascii.ascii := Ascii.ascii_of_N 37.

Fixpoint encodeURIComponent (s : string) : string :=
  match s with
  | EmptyString => EmptyString
  | String c rest =>
      if unreserved c then String c (encodeURIComponent rest)
      else
        let n := Ascii.N_of_ascii c in
        String percent
          (String (hex_digit (n / 16)) (String (hex_digit (n mod 16))
             (encodeURIComponent rest)))
  end.

(** The keys [0], [1], ... paired with the items of an array. *)
Fixpoint indexed (i : Z) (items : list value) : list (string * value) :=
  match items with
  | [] => []
  | x :: rest => (pretty i, x) :: indexed (i + 1) rest
  end.

(** The characters of a string, each as a one-character string. *)
Fixpoint characters (s : string) : list value :=
  match s with
  | EmptyString => []
  | String c rest => Str (String c EmptyString) :: characters rest
  end.

(** [Object.entries (v)]: the properties of an object, the indexed items
    of an array, the indexed characters of a string, nothing for a number
    or a boolean; [null] and [undefined] throw. *)
Definition entries {St} (v : value) : M St (list (string * value)) :=
  match v with
  | Obj props => ret props
  | Arr items => ret (indexed 0 items)
  | Str s => ret (indexed 0 (characters s))
  | Num _ | Bool _ => ret []
  | Undefined | Null =>
      throw (Error "TypeError" "Cannot convert undefined or null to object")
  end.

(** [base.prop] where [base] may be [null] or [undefined]: reading a
    property of those throws. *)
Definition read {St} (base : value) (prop : string) : M St value :=
  match base with
  | Undefined | Null =>
      throw (Error "TypeError" ("Cannot read properties of " ++ to_string base
                                  ++ " (reading '" ++ prop ++ "')"))
  | _ => ret (get base prop)
  end.

(** [attributes[key] = v] as [getUserInfo] and [listUsers] use it, on an
    object created by [{}], for a value that is not an object: the key is
    the string form of [key]; assigning to [__proto__] is ignored. *)
Definition assign_key (attributes : value) (key v : value) : value :=
  if String.eqb (to_string key) "__proto__" then attributes
  else assign attributes (to_string key) v.

(** ** [services/cognito-service.js] *)

Module CognitoService.

(** [generateJWT (userData)]: only [userId], [username], [email] and
    [role] (default ['user']) are taken from [userData], which is an
    object at every call site. (Destructuring [null] or [undefined]
    throws; the model has no token-less outcome for that.) *)
Definition generateJWT (e : env) (userData : value) : Jwt.token :=
  let userId := get userData "userId" in
  let username := get userData "username" in
  let email := get userData "email" in
  let role := match get userData "role" with
              | Undefined => Str "user"
              | r => r
              end in
  let payload :=
    [ ("userId", userId);
      ("username", username);
      ("email", email);
      ("role", role);
      ("iat", Num (now_seconds e));
      ("exp", Num (now_seconds e + 24 * 60 * 60)) ] in
  Jwt.sign payload (JWT_SECRET e).

(** [verifyToken (token)]: the token is decoded, not verified. The
    [try]/[catch] turns both thrown errors into a failure result. *)
Definition verifyToken (e : env) (token : Jwt.token) : value :=
  let decoded := Jwt.decode token in
  if JS.falsy decoded then
    Obj [("success", Bool false); ("error", Str "Invalid token format")]
  else
    let now := now_seconds e in
    if truthy (get decoded "exp") && lt_num (get decoded "exp") now then
      Obj [("success", Bool false); ("error", Str "Token has expired")]
    else
      Obj [("success", Bool true);
           ("user", Obj [
              ("userId", JS.either (get decoded "sub") (get decoded "username"));
              ("username", JS.either (get decoded "username") (get decoded "cognito:username"));
              ("email", get decoded "email");
              ("groups", JS.either (get decoded "cognito:groups") (Arr [])) ])].

(** [value.toString ()]: a method call, so it throws on [null] and
    [undefined]. *)
Definition toString {St} (v : value) : M St string :=
  match v with
  | Undefined | Null =>
      throw (Error "TypeError" ("Cannot read properties of " ++ to_string v
                                  ++ " (reading 'toString')"))
  | _ => ret (to_string v)
  end.

Fixpoint mapM {St A B} (f : A → M St B) (l : list A) : M St (list B) :=
  match l with
  | [] => ret []
  | x :: rest =>
      let! y := f x in
      let! ys := mapM f rest in
      ret (y :: ys)
  end.

(** [for (const x of l) { await f (x) }] *)
Fixpoint for_of {St A B} (l : list A) (f : A → M St B) : M St unit :=
  match l with
  | [] => ret tt
  | x :: rest => await! f x in for_of rest f
  end.

Section Methods.
Context {St : Type} `{!Client St} (cfg : config) (e : env).

Definition authenticateUser (username password : string) : M St value :=
  try_catch
    (let! command := new_command "AdminInitiateAuthCommand" (Obj [
         ("UserPoolId", Str (userPoolId cfg));
         ("ClientId", Str (clientId cfg));
         ("AuthFlow", Str "ADMIN_NO_SRP_AUTH");
         ("AuthParameters", Obj [("USERNAME", Str username);
                                 ("PASSWORD", Str password)]) ]) in
     let! result := send command in
     if truthy (get result "AuthenticationResult") then
       let auth := get result "AuthenticationResult" in
       ret (Obj [
         ("success", Bool true);
         ("tokens", Obj [("accessToken", get auth "AccessToken");
                         ("idToken", get auth "IdToken");
                         ("refreshToken", get auth "RefreshToken");
                         ("expiresIn", get auth "ExpiresIn")]);
         ("user", Obj [("username", Str username);
                       ("authenticatedAt", Str (Date_toISOString e))]) ])
     else if truthy (get result "ChallengeName") then
       ret (Obj [
         ("success", Bool false);
         ("challenge", get result "ChallengeName");
         ("session", get result "Session");
         ("parameters", get result "ChallengeParameters") ])
     else throw (Error "Error" "Authentication failed - no result"))
    (λ error,
       if String.eqb (name error) "NotAuthorizedException" then
         throw (Error "Error" "Invalid username or password")
       else if String.eqb (name error) "UserNotConfirmedException" then
         throw (Error "Error" "User account not confirmed")
       else if String.eqb (name error) "UserNotFoundException" then
         throw (Error "Error" "User not found")
       else
         throw (Error "Error" ("Authentication failed: " ++ message error))).

(** [updateUserAttributes (username, attributes)], a method of the base
    revision; [attributes] is the object its caller builds. *)
Definition updateUserAttributes (username : string) (attributes : value)
  : M St value :=
  try_catch
    (let! userAttributes :=
       mapM (λ '(name, value),
               let! s := toString value in
               ret (Obj [("Name", Str name); ("Value", Str s)]))
            (match attributes with Obj props => props | _ => [] end) in
     let! command := new_command "AdminUpdateUserAttributesCommand" (Obj [
         ("UserPoolId", Str (userPoolId cfg));
         ("Username", Str username);
         ("UserAttributes", Arr userAttributes) ]) in
     await! send command in
     ret (Obj [("success", Bool true); ("updatedAttributes", attributes)]))
    (λ error,
       throw (Error "Error" ("Failed to update user attributes: "
                               ++ message error))).

(** [verifyMFA (username, code, secret = null)] *)
Definition verifyMFA (username code : string) (secret : value) : M St value :=
  let secret := match secret with Undefined => Null | s => s end in
  try_catch
    (let! verifyCommand :=
       if truthy secret then
         new_command "VerifySoftwareTokenCommand" (Obj [
           ("UserCode", Str code);
           ("FriendlyDeviceName", Str "Authenticator App");
           ("Session", Null);
           ("SecretKey", secret) ])
       else
         new_command "AdminVerifySoftwareTokenCommand" (Obj [
           ("UserPoolId", Str (userPoolId cfg));
           ("Username", Str username);
           ("UserCode", Str code) ]) in
     let! verifyResult := send verifyCommand in
     await! (if truthy secret then
               let! enableCommand :=
                 new_command "AdminSetUserMFAPreferenceCommand" (Obj [
                   ("UserPoolId", Str (userPoolId cfg));
                   ("Username", Str username);
                   ("SoftwareTokenMfaSettings",
                    Obj [("Enabled", Bool true); ("PreferredMfa", Bool true)]) ]) in
               send enableCommand
             else ret Undefined) in
     ret (Obj [
       ("success", Bool true);
       ("status", Str (if truthy secret then "enabled" else "verified"));
       ("message", Str (if truthy secret then "MFA enabled successfully"
                        else "MFA code verified")) ]))
    (λ error,
       if String.eqb (name error) "CodeMismatchException" then
         ret (Obj [("success", Bool false); ("error", Str "Invalid MFA code")])
       else
         ret (Obj [("success", Bool false); ("error", Str (message error))])).

Definition addUserToGroup (username : string) (groupName : value) : M St value :=
  try_catch
    (let! command := new_command "AdminAddUserToGroupCommand" (Obj [
         ("UserPoolId", Str (userPoolId cfg));
         ("Username", Str username);
         ("GroupName", groupName) ]) in
     await! send command in
     ret (Obj [
       ("success", Bool true);
       ("message", Str ("User added to " ++ to_string groupName ++ " group")) ]))
    (λ error,
       ret (Obj [("success", Bool false); ("error", Str (message error))])).

Definition removeUserFromGroup (username : string) (groupName : value)
  : M St value :=
  try_catch
    (let! command := new_command "AdminRemoveUserFromGroupCommand" (Obj [
         ("UserPoolId", Str (userPoolId cfg));
         ("Username", Str username);
         ("GroupName", groupName) ]) in
     await! send command in
     ret (Obj [
       ("success", Bool true);
       ("message", Str ("User removed from " ++ to_string groupName ++ " group")) ]))
    (λ error,
       ret (Obj [("success", Bool false); ("error", Str (message error))])).

(** [result.Groups.map (group => ({ name: group.GroupName, ... }))] needs
    [Groups] to be an array, without [null] or [undefined] items. *)
Definition listGroupsForUser (username : string) : M St value :=
  try_catch
    (let! command := new_command "AdminListGroupsForUserCommand" (Obj [
         ("UserPoolId", Str (userPoolId cfg));
         ("Username", Str username);
         ("Limit", Num 10) ]) in
     let! result := send command in
     let! groups :=
       match get result "Groups" with
       | Arr items =>
           mapM (λ group,
                   let! name := read group "GroupName" in
                   ret (Obj [("name", name);
                             ("description", get group "Description");
                             ("created", get group "CreationDate");
                             ("modified", get group "LastModifiedDate")]))
                items
       | Undefined | Null => await! read (get result "Groups") "map" in ret []
       | _ => throw (Error "TypeError" "result.Groups.map is not a function")
       end in
     ret (Obj [("success", Bool true); ("groups", Arr groups)]))
    (λ error,
       ret (Obj [("success", Bool false); ("error", Str (message error))])).

(** [updateUserRole (username, newRole, status = 'active')]. The class of
    this revision defines no method [updateUserAttributes], so the call
    [this.updateUserAttributes (...)] throws. *)
Definition updateUserRole (username newRole : string) (status : value)
  : M St value :=
  let status := match status with Undefined => Str "active" | s => s end in
  try_catch
    (let! currentGroups := listGroupsForUser username in
     if JS.falsy (get currentGroups "success") then ret currentGroups
     else
       await! match get currentGroups "groups" with
              | Arr groups =>
                  for_of groups
                    (λ group, removeUserFromGroup username (get group "name"))
              | _ => throw (Error "TypeError" "currentGroups.groups is not iterable")
              end in
       let! groupResult := addUserToGroup username (Str newRole) in
       if JS.falsy (get groupResult "success") then ret groupResult
       else
         await! (if is_str "suspended" status then
                   let! disableCommand :=
                     new_command "AdminDisableUserCommand" (Obj [
                       ("UserPoolId", Str (userPoolId cfg));
                       ("Username", Str username) ]) in
                   send disableCommand
                 else if is_str "active" status then
                   let! enableCommand :=
                     new_command "AdminEnableUserCommand" (Obj [
                       ("UserPoolId", Str (userPoolId cfg));
                       ("Username", Str username) ]) in
                   send enableCommand
                 else ret Undefined) in
         await! throw (A := value)
                  (Error "TypeError" "this.updateUserAttributes is not a function") in
         ret (Obj [
           ("success", Bool true);
           ("message", Str ("User role updated to " ++ newRole
                              ++ ", status: " ++ to_string status)) ]))
    (λ error,
       ret (Obj [("success", Bool false); ("error", Str (message error))])).

Definition respondToMFAChallenge (username session code : string) : M St value :=
  try_catch
    (let! command := new_command "AdminRespondToAuthChallengeCommand" (Obj [
         ("UserPoolId", Str (userPoolId cfg));
         ("ClientId", Str (clientId cfg));
         ("ChallengeName", Str "SOFTWARE_TOKEN_MFA");
         ("Session", Str session);
         ("ChallengeResponses", Obj [("USERNAME", Str username);
                                     ("SOFTWARE_TOKEN_MFA_CODE", Str code)]) ]) in
     let! result := send command in
     if truthy (get result "AuthenticationResult") then
       ret (Obj [
         ("success", Bool true);
         ("tokens", get result "AuthenticationResult");
         ("user", Obj [("username", Str username)]) ])
     else
       ret (Obj [("success", Bool false); ("error", Str "MFA challenge failed")]))
    (λ error,
       ret (Obj [("success", Bool false); ("error", Str (message error))])).


(** The remaining methods of the base revision. User names and passwords
    are passed through as they come (from a request body or a token). *)

Definition setUserPassword (username password : value) : M St value :=
  try_catch
    (let! command := new_command "AdminSetUserPasswordCommand" (Obj [
         ("UserPoolId", Str (userPoolId cfg));
         ("Username", username);
         ("Password", password);
         ("Permanent", Bool true) ]) in
     await! send command in
     ret (Obj [("success", Bool true)]))
    (λ error,
       throw (Error "Error" ("Failed to set password: " ++ message error))).

(** [registerUser (userData)], [userData] being an object. Only
    [username], [email], [password] and [attributes] (default [{}]) are
    read from it. *)
Definition registerUser (userData : value) : M St value :=
  try_catch
    (let username := get userData "username" in
     let email := get userData "email" in
     let password := get userData "password" in
     let attributes := match get userData "attributes" with
                       | Undefined => Obj []
                       | a => a
                       end in
     let! pairs := entries attributes in
     let! custom :=
       mapM (λ '(name, value),
               let! s := toString value in
               ret (Obj [("Name", Str name); ("Value", Str s)]))
            pairs in
     let userAttributes :=
       Obj [("Name", Str "email"); ("Value", email)]
       :: Obj [("Name", Str "email_verified"); ("Value", Str "true")]
       :: custom in
     let! command := new_command "AdminCreateUserCommand" (Obj [
         ("UserPoolId", Str (userPoolId cfg));
         ("Username", username);
         ("UserAttributes", Arr userAttributes);
         ("TemporaryPassword", password);
         ("MessageAction", Str "SUPPRESS") ]) in
     let! result := send command in
     await! setUserPassword username password in
     await! read (get result "User") "Username" in
     ret (Obj [
       ("success", Bool true);
       ("user", Obj [("username", get (get result "User") "Username");
                     ("email", email);
                     ("status", get (get result "User") "UserStatus");
                     ("createdAt", get (get result "User") "UserCreateDate");
                     ("attributes", get (get result "User") "Attributes")]) ]))
    (λ error,
       if String.eqb (name error) "UsernameExistsException" then
         throw (Error "Error" "Username already exists")
       else if String.eqb (name error) "InvalidParameterException" then
         throw (Error "Error" "Invalid user data provided")
       else
         throw (Error "Error" ("User registration failed: " ++ message error))).

(** [list.forEach (attr => { attributes[attr.Name] = attr.Value; })],
    starting from [attributes]: [list] has to be an array, its items must
    not be [null] or [undefined]. *)
Fixpoint collect_attributes {S} (items : list value) (attributes : value)
  : M S value :=
  match items with
  | [] => ret attributes
  | attr :: rest =>
      let! name := read attr "Name" in
      collect_attributes rest (assign_key attributes name (get attr "Value"))
  end.

Definition attributes_of {S} (expr : string) (list : value) : M S value :=
  match list with
  | Arr items => collect_attributes items (Obj [])
  | Undefined | Null => await! read list "forEach" in ret Undefined
  | _ => throw (Error "TypeError" (expr ++ ".forEach is not a function"))
  end.

Definition getUserInfo (username : value) : M St value :=
  try_catch
    (let! command := new_command "AdminGetUserCommand" (Obj [
         ("UserPoolId", Str (userPoolId cfg));
         ("Username", username) ]) in
     let! result := send command in
     let! attributes := attributes_of "result.UserAttributes"
                          (get result "UserAttributes") in
     ret (Obj [
       ("success", Bool true);
       ("user", Obj [("username", get result "Username");
                     ("status", get result "UserStatus");
                     ("enabled", get result "Enabled");
                     ("createdAt", get result "UserCreateDate");
                     ("modifiedAt", get result "UserLastModifiedDate");
                     ("attributes", attributes)]) ]))
    (λ error,
       if String.eqb (name error) "UserNotFoundException" then
         ret (Obj [("success", Bool false); ("error", Str "User not found")])
       else
         throw (Error "Error" ("Failed to get user info: " ++ message error))).

Definition deleteUser (username : value) : M St value :=
  try_catch
    (let! command := new_command "AdminDeleteUserCommand" (Obj [
         ("UserPoolId", Str (userPoolId cfg));
         ("Username", username) ]) in
     await! send command in
     ret (Obj [("success", Bool true); ("deletedUsername", username)]))
    (λ error,
       if String.eqb (name error) "UserNotFoundException" then
         ret (Obj [("success", Bool false); ("error", Str "User not found")])
       else
         throw (Error "Error" ("Failed to delete user: " ++ message error))).

Definition confirmUserRegistration (username confirmationCode : value)
  : M St value :=
  try_catch
    (let! command := new_command "ConfirmSignUpCommand" (Obj [
         ("ClientId", Str (clientId cfg));
         ("Username", username);
         ("ConfirmationCode", confirmationCode) ]) in
     await! send command in
     ret (Obj [("success", Bool true);
               ("message", Str "User registration confirmed successfully")]))
    (λ error,
       if String.eqb (name error) "CodeMismatchException" then
         throw (Error "Error" "Invalid confirmation code")
       else if String.eqb (name error) "ExpiredCodeException" then
         throw (Error "Error" "Confirmation code has expired")
       else if String.eqb (name error) "NotAuthorizedException" then
         throw (Error "Error" "User is already confirmed")
       else
         throw (Error "Error" ("Registration confirmation failed: "
                                 ++ message error))).

(** The remaining methods of the MFA and groups revision. *)

Definition generateQRCode (username secret : value) : string :=
  let issuer := "Convertool" in
  let encodedIssuer := encodeURIComponent issuer in
  let encodedUsername := encodeURIComponent (to_string username) in
  "otpauth://totp/" ++ encodedIssuer ++ ":" ++ encodedUsername
    ++ "?secret=" ++ to_string secret ++ "&issuer=" ++ encodedIssuer
    ++ "&algorithm=SHA1&digits=6&period=30".

Definition getMFAStatus (username : value) : M St value :=
  try_catch
    (let! command := new_command "AdminGetUserCommand" (Obj [
         ("UserPoolId", Str (userPoolId cfg));
         ("Username", username) ]) in
     let! result := send command in
     let settings := get result "UserMFASettingList" in
     let! mfaEnabled :=
       if truthy settings then
         match settings with
         | Arr items => ret (arr_includes items "SOFTWARE_TOKEN_MFA")
         | Str s => ret (str_includes "SOFTWARE_TOKEN_MFA" s)
         | _ => throw (Error "TypeError"
                         "result.UserMFASettingList.includes is not a function")
         end
       else ret false in
     if mfaEnabled then
       ret (Obj [("success", Bool true);
                 ("enabled", Bool true);
                 ("message", Str "MFA is already enabled")])
     else
       let! associateCommand :=
         new_command "AdminAssociateSoftwareTokenCommand" (Obj [
           ("UserPoolId", Str (userPoolId cfg));
           ("Username", username) ]) in
       let! associateResult := send associateCommand in
       ret (Obj [
         ("success", Bool true);
         ("enabled", Bool false);
         ("setupData", Obj [
            ("secret", get associateResult "SecretCode");
            ("qrCode", Str (generateQRCode username
                              (get associateResult "SecretCode"))) ]) ]))
    (λ error,
       ret (Obj [("success", Bool false); ("error", Str (message error))])).

Definition disableMFA (username code : string) : M St value :=
  try_catch
    (let! verifyResult := verifyMFA username code Undefined in
     if JS.falsy (get verifyResult "success") then ret verifyResult
     else
       let! disableCommand :=
         new_command "AdminSetUserMFAPreferenceCommand" (Obj [
           ("UserPoolId", Str (userPoolId cfg));
           ("Username", Str username);
           ("SoftwareTokenMfaSettings",
            Obj [("Enabled", Bool false); ("PreferredMfa", Bool false)]) ]) in
       await! send disableCommand in
       ret (Obj [("success", Bool true);
                 ("message", Str "MFA disabled successfully")]))
    (λ error,
       ret (Obj [("success", Bool false); ("error", Str (message error))])).

(** [listUsers (limit = 50, paginationToken = null)] *)
Definition listUsers (limit paginationToken : value) : M St value :=
  let limit := match limit with Undefined => Num 50 | l => l end in
  let paginationToken := match paginationToken with Undefined => Null | t => t end in
  try_catch
    (let! command := new_command "ListUsersCommand" (Obj [
         ("UserPoolId", Str (userPoolId cfg));
         ("Limit", limit);
         ("PaginationToken", paginationToken) ]) in
     let! result := send command in
     let! users :=
       match get result "Users" with
       | Arr items =>
           mapM (λ user,
                   let! list := read user "Attributes" in
                   let! attributes := attributes_of "user.Attributes" list in
                   ret (Obj [("id", get user "Username");
                             ("username", get user "Username");
                             ("email", JS.either (get attributes "email") (Str ""));
                             ("status", get user "UserStatus");
                             ("enabled", get user "Enabled");
                             ("createdAt", get user "UserCreateDate");
                             ("attributes", attributes)]))
                items
       | Undefined | Null => await! read (get result "Users") "map" in ret []
       | _ => throw (Error "TypeError" "result.Users.map is not a function")
       end in
     ret (Obj [("success", Bool true);
               ("users", Arr users);
               ("paginationToken", get result "PaginationToken")]))
    (λ error,
       ret (Obj [("success", Bool false); ("error", Str (message error))])).

End Methods.

End CognitoService.

(** ** [services/mfa-service.js] *)

Module MFAService.

Section Methods.
Context {St : Type} `{!Client St} (cfg : config).

Definition initiateAuthWithMFA (username password : string) : M St value :=
  try_catch
    (let! command := new_command "AdminInitiateAuthCommand" (Obj [
         ("UserPoolId", Str (userPoolId cfg));
         ("ClientId", Str (clientId cfg));
         ("AuthFlow", Str "ADMIN_NO_SRP_AUTH");
         ("AuthParameters", Obj [("USERNAME", Str username);
                                 ("PASSWORD", Str password)]) ]) in
     let! result := send command in
     if is_str "SOFTWARE_TOKEN_MFA" (get result "ChallengeName") then
       ret (Obj [
         ("success", Bool true);
         ("challengeName", get result "ChallengeName");
         ("session", get result "Session");
         ("message", Str "MFA code required") ])
     else
       ret (Obj [
         ("success", Bool true);
         ("authResult", get result "AuthenticationResult");
         ("message", Str "Authentication successful") ]))
    (λ error,
       throw (Error "Error" ("Authentication failed: " ++ message error))).


Definition associateSoftwareToken (accessToken : value) : M St value :=
  try_catch
    (let! command := new_command "AssociateSoftwareTokenCommand" (Obj [
         ("AccessToken", accessToken) ]) in
     let! result := send command in
     ret (Obj [("success", Bool true);
               ("secretCode", get result "SecretCode");
               ("session", get result "Session")]))
    (λ error,
       throw (Error "Error" ("Failed to associate software token: "
                               ++ message error))).

Definition verifySoftwareToken (accessToken userCode session : value)
  : M St value :=
  try_catch
    (let! command := new_command "VerifySoftwareTokenCommand" (Obj [
         ("AccessToken", accessToken);
         ("UserCode", userCode);
         ("Session", session) ]) in
     let! result := send command in
     ret (Obj [("success", Bool true);
               ("status", get result "Status");
               ("session", get result "Session")]))
    (λ error,
       throw (Error "Error" ("Failed to verify software token: "
                               ++ message error))).

(** [setUserMFAPreference (accessToken, enabled = true)] *)
Definition setUserMFAPreference (accessToken enabled : value) : M St value :=
  let enabled := match enabled with Undefined => Bool true | b => b end in
  try_catch
    (let! command := new_command "SetUserMFAPreferenceCommand" (Obj [
         ("AccessToken", accessToken);
         ("SoftwareTokenMfaSettings",
          Obj [("Enabled", enabled); ("PreferredMfa", enabled)]) ]) in
     await! send command in
     ret (Obj [("success", Bool true);
               ("message", Str ("MFA " ++ (if truthy enabled then "enabled"
                                           else "disabled")
                                       ++ " successfully"))]))
    (λ error,
       throw (Error "Error" ("Failed to set MFA preference: " ++ message error))).

Definition respondToMFAChallenge (username mfaCode session : value) : M St value :=
  try_catch
    (let! command := new_command "AdminRespondToAuthChallengeCommand" (Obj [
         ("UserPoolId", Str (userPoolId cfg));
         ("ClientId", Str (clientId cfg));
         ("ChallengeName", Str "SOFTWARE_TOKEN_MFA");
         ("ChallengeResponses", Obj [("USERNAME", username);
                                     ("SOFTWARE_TOKEN_MFA_CODE", mfaCode)]);
         ("Session", session) ]) in
     let! result := send command in
     ret (Obj [("success", Bool true);
               ("authResult", get result "AuthenticationResult");
               ("message", Str "MFA authentication successful")]))
    (λ error,
       throw (Error "Error" ("MFA challenge failed: " ++ message error))).

Definition generateQRCodeURL (username secretCode : value) : string :=
  let appName := "MediaProcessor" in
  let label := appName ++ ":" ++ to_string username in
  let issuer := encodeURIComponent appName in
  "otpauth://totp/" ++ encodeURIComponent label ++ "?secret="
    ++ to_string secretCode ++ "&issuer=" ++ issuer.

End Methods.

End MFAService.

(** ** The complete application (MFA and user groups) *)

Module App.

Section Routes.
Context {St : Type} `{!Client St} (cfg : config) (e : env).

(** [POST /api/auth/login]; [username] and [password] are the two
    fields of the request body, an absent field being as falsy as the
    empty string. *)
Definition login (username password : string) : M St response :=
  if JS.falsy (Str username) || JS.falsy (Str password) then
    ret (Response 400 (Obj [("error", Str "Username and password are required")]) None)
  else
    try_catch
      (let! result := CognitoService.authenticateUser cfg e username password in
       if truthy (get result "success") then
         let jwtToken := CognitoService.generateJWT e (Obj [
           ("userId", get (get result "user") "username");
           ("username", get (get result "user") "username");
           ("email", JS.either (get (get result "user") "email") (Str ""));
           ("role", Str "user");
           ("cognito:groups", JS.either (get (get result "user") "groups") (Arr [])) ]) in
         ret (Response 200 (Obj [
                ("message", Str "Login successful");
                ("user", get result "user");
                ("expiresIn", Str "24h") ]) (Some jwtToken))
       else if is_str "SMS_MFA" (get result "challengeName")
               || is_str "SOFTWARE_TOKEN_MFA" (get result "challengeName") then
         ret (Response 200 (Obj [
                ("mfaRequired", Bool true);
                ("challenge", get result "challengeName");
                ("session", get result "Session");
                ("username", Str username) ]) None)
       else
         ret (Response 401 (Obj [
                ("error", JS.either (get result "error") (Str "Authentication failed")) ])
                None))
      (λ error,
         ret (Response 500 (Obj [("error", Str (message error))]) None)).

(** [POST /api/auth/mfa-challenge] *)
Definition mfa_challenge (username session code : string) : M St response :=
  if JS.falsy (Str username) || JS.falsy (Str session) || JS.falsy (Str code) then
    ret (Response 400 (Obj [("error", Str "Username, session, and code are required")])
           None)
  else
    try_catch
      (let! result :=
         CognitoService.respondToMFAChallenge cfg username session code in
       if truthy (get result "success") then
         let jwtToken := CognitoService.generateJWT e (Obj [
           ("userId", Str username);
           ("username", Str username);
           ("email", Str "");
           ("role", Str "user");
           ("cognito:groups", Arr []) ]) in
         ret (Response 200 (Obj [
                ("message", Str "MFA verification successful");
                ("user", Obj [("username", Str username)]);
                ("expiresIn", Str "24h") ]) (Some jwtToken))
       else
         ret (Response 401 (Obj [
                ("error", JS.either (get result "error") (Str "MFA verification failed")) ])
                None))
      (λ error,
         ret (Response 500 (Obj [("error", Str (message error))]) None)).


(** [POST /api/auth/register]; [body] is [req.body]. *)
Definition register (body : value) : M St response :=
  let username := get body "username" in
  let email := get body "email" in
  let password := get body "password" in
  if JS.falsy username || JS.falsy email || JS.falsy password then
    ret (Response 400 (Obj [("error", Str "Username, email, and password are required")])
           None)
  else
    try_catch
      (let! result := CognitoService.registerUser cfg (Obj [
           ("username", username);
           ("email", email);
           ("password", password);
           ("attributes", Obj [("custom:role", Str "user")]);
           ("group", Str "User") ]) in
       if truthy (get result "success") then
         ret (Response 200 (Obj [("message", Str "User registered successfully");
                                 ("user", get result "user")]) None)
       else
         ret (Response 400 (Obj [
                ("error", JS.either (get result "error") (Str "Registration failed")) ])
                None))
      (λ error,
         ret (Response 500 (Obj [("error", Str (message error))]) None)).

(** The handler of [GET /api/auth/user], run with [req.user] once
    [authenticateToken] has passed. *)
Definition auth_user (user : value) : M St response :=
  try_catch
    (let! result := CognitoService.getUserInfo cfg (get user "username") in
     if truthy (get result "success") then
       ret (Response 200 (Obj [("message", Str "User info retrieved successfully");
                               ("user", get result "user")]) None)
     else
       ret (Response 404 (Obj [
              ("error", JS.either (get result "error") (Str "User not found")) ]) None))
    (λ error,
       ret (Response 500 (Obj [("error", Str (message error))]) None)).

(** The handler of [GET /api/users/profile]. *)
Definition users_profile (user : value) : M St response :=
  try_catch
    (let! result := CognitoService.getUserInfo cfg (get user "username") in
     if truthy (get result "success") then
       let attributes := get (get result "user") "attributes" in
       ret (Response 200 (Obj [
              ("username", get (get result "user") "username");
              ("email", JS.either (get attributes "email") (Str ""));
              ("firstName", JS.either (get attributes "given_name") (Str ""));
              ("lastName", JS.either (get attributes "family_name") (Str ""));
              ("role", JS.either (get attributes "custom:role") (Str "user")) ]) None)
     else
       ret (Response 404 (Obj [
              ("error", JS.either (get result "error") (Str "User not found")) ]) None))
    (λ error,
       ret (Response 500 (Obj [("error", Str (message error))]) None)).

(** A route behind [authenticateToken]: the handler runs with [req.user]
    when the guard calls [next ()]. *)
Definition authenticated (bearer : option Jwt.token)
    (handler : value → M St response) : M St response :=
  match authenticateToken e bearer with
  | Next user => handler user
  | Reply r => ret r
  | Throws err => throw err
  end.

End Routes.

(** The guard chain of the administrative routes:
    [authenticateToken, authorizeGroup (requiredGroup)]. *)
Definition admin_guard (e : env) (requiredGroup : string)
    (bearer : option Jwt.token) : step :=
  match authenticateToken e bearer with
  | Next user => authorizeGroup requiredGroup user
  | other => other
  end.

End App.

(** ** [app-cloud.js] *)

Module AppCloud.

Section Routes.
Context {St : Type} `{!Client St} (cfg : config) (e : env).

(** [POST /api/auth/login] *)
Definition login (username password : string) : M St response :=
  if JS.falsy (Str username) || JS.falsy (Str password) then
    ret (Response 400 (Obj [("error", Str "Username and password are required")]) None)
  else
    try_catch
      (let! result := CognitoService.authenticateUser cfg e username password in
       if truthy (get result "success") then
         let jwtToken := CognitoService.generateJWT e (Obj [
           ("userId", get (get result "user") "username");
           ("username", get (get result "user") "username");
           ("email", JS.either (get (get result "user") "email") (Str ""));
           ("role", Str "user") ]) in
         ret (Response 200 (Obj [
                ("message", Str "Login successful");
                ("user", get result "user");
                ("expiresIn", Str "24h") ]) (Some jwtToken))
       else if truthy (get result "challenge") then
         ret (Response 200 (Obj [
                ("challenge", get result "challenge");
                ("session", get result "session");
                ("parameters", get result "parameters") ]) None)
       else
         ret (Response 401 (Obj [
                ("error", JS.either (get result "error") (Str "Authentication failed")) ])
                None))
      (λ error,
         ret (Response 500 (Obj [("error", Str (message error))]) None)).


(** [POST /api/auth/register] *)
Definition register (body : value) : M St response :=
  let username := get body "username" in
  let email := get body "email" in
  let password := get body "password" in
  if JS.falsy username || JS.falsy email || JS.falsy password then
    ret (Response 400 (Obj [("error", Str "Username, email, and password are required")])
           None)
  else
    try_catch
      (let! result := CognitoService.registerUser cfg (Obj [
           ("username", username);
           ("email", email);
           ("password", password);
           ("attributes", Obj [("custom:role", Str "user")]) ]) in
       if truthy (get result "success") then
         ret (Response 200 (Obj [("message", Str "User registered successfully");
                                 ("user", get result "user")]) None)
       else
         ret (Response 400 (Obj [
                ("error", JS.either (get result "error") (Str "Registration failed")) ])
                None))
      (λ error,
         ret (Response 500 (Obj [("error", Str (message error))]) None)).

End Routes.

End AppCloud.

(** ** The local application (SQLite users, in-process groups) *)

(** [jwt.sign (payload, secret, { expiresIn: '24h' })] for a payload that
    has no [iat] and no [exp]: both are added, [exp] 24 hours after [iat]. *)
Definition sign_expiresIn_24h (payload : list (string * value)) (secret : string)
    (clock : Z) : Jwt.token :=
  Jwt.sign (payload ++ [("iat", Num clock); ("exp", Num (clock + 24 * 60 * 60))])%list
           secret.

Module LocalApp.

(** A row of the [users] table. *)
Record user_row := Row {
  id : Z;
  username : string;
  password_hash : string;
  role : value
}.

(** [POST /api/auth/login]. [username] and [password] are the two fields
    of the request body as they come ([undefined] when absent).
    [db_get username] is what the query calls back with (an error, no
    row, or the row). [bcrypt_compare] is [bcrypt.compare] of the
    [bcryptjs] package: its promise resolves to a boolean or rejects. The
    query's callback is an [async] function without a [try]: when the
    comparison rejects, the rejection is left unhandled and the request
    is never answered, which is the result [inl]. *)
Definition login (e : env)
    (db_get : value → error + option user_row)
    (bcrypt_compare : value → string → error + bool)
    (username password : value) : error + response :=
  match db_get username with
  | inl _ | inr None =>
      inr (Response 401 (Obj [("error", Str "Invalid credentials")]) None)
  | inr (Some user) =>
      match bcrypt_compare password (password_hash user) with
      | inl err => inl err
      | inr validPassword =>
          if negb validPassword then
            inr (Response 401 (Obj [("error", Str "Invalid credentials")]) None)
          else
            let token :=
              sign_expiresIn_24h
                [("userId", Num (id user));
                 ("username", Str (LocalApp.username user));
                 ("role", role user)]
                (JWT_SECRET e) (now_seconds e) in
            inr (Response 200 (Obj [("user", Obj [("id", Num (id user));
                                                  ("username", Str (LocalApp.username user));
                                                  ("role", role user)])])
                   (Some token))
      end
  end.

(** The guard chain [authenticateToken, requireGroup (allowedGroups)] of
    [/api/admin/dashboard] (['Admin']) and [/api/user/profile] (['User']). *)
Definition group_guard (e : env) (allowedGroups : CognitoGroups.allowed)
    (m : CognitoGroups.store) (bearer : option Jwt.token) : step :=
  match authenticateToken e bearer with
  | Next user => CognitoGroups.requireGroup allowedGroups m user
  | other => other
  end.

End LocalApp.

(** ** A scripted client

    A client that answers the commands it receives with a prepared list of
    answers, in order, and refuses everything once the list is used up. *)

Module Script.

#[global] Instance client : Client (list (error + value)) :=
  λ c answers,
    match answers with
    | [] => (inl (Error "ServiceUnavailableException" "no answer"), [])
    | a :: rest => (a, rest)
    end.

End Script.

(** ** A reference directory

    A small user directory that answers the client's commands, to run the
    service on concrete inputs. Each account has a password, an MFA
    enrolment state and its groups; [totp] gives, for an enrolment secret,
    the one-time code valid now; [fault] makes chosen calls fail (the
    provider is unavailable, or throttles). *)

Module Directory.

Inductive enrollment := DISABLED | PENDING_VERIFICATION | ENABLED.

Record account := Account {
  password : string;
  mfa : enrollment;
  groups : list string
}.

Record state := State {
  accounts : gmap string account;
  totp : gmap string string;
  fault : command → option error
}.

Definition no_fault : command → option error := λ _, None.

Definition update (u : string) (f : account → account) (d : state) : state :=
  State (alter f u (accounts d)) (totp d) (fault d).

Definition user_not_found : error :=
  Error "UserNotFoundException" "User does not exist.".

(** The answer to a command whose [Username] names an account. *)
Definition with_account (d : state) (username : value)
    (k : string → account → (error + value) * state) : (error + value) * state :=
  match username with
  | Str u =>
      match accounts d !! u with
      | Some a => k u a
      | None => (inl user_not_found, d)
      end
  | _ => (inl (Error "InvalidParameterException" "Username must be a string"), d)
  end.

Definition answer (c : command) (d : state) : (error + value) * state :=
  let i := input c in
  if String.eqb (command_name c) "AdminInitiateAuth" then
    with_account d (get (get i "AuthParameters") "USERNAME") (λ u a,
      if negb (is_str (password a) (get (get i "AuthParameters") "PASSWORD")) then
        (inl (Error "NotAuthorizedException" "Incorrect username or password."), d)
      else
        match mfa a with
        | ENABLED =>
            (inr (Obj [("ChallengeName", Str "SOFTWARE_TOKEN_MFA");
                       ("Session", Str ("session-for-" ++ u));
                       ("ChallengeParameters", Obj [])]), d)
        | _ =>
            (inr (Obj [("AuthenticationResult",
                        Obj [("AccessToken", Str ("access-" ++ u));
                             ("IdToken", Str ("id-" ++ u));
                             ("RefreshToken", Str ("refresh-" ++ u));
                             ("ExpiresIn", Num 3600)])]), d)
        end)
  else if String.eqb (command_name c) "VerifySoftwareToken" then
    match get i "SecretKey", get i "UserCode" with
    | Str secret, Str code =>
        if bool_decide (totp d !! secret = Some code) then
          (inr (Obj [("Status", Str "SUCCESS")]), d)
        else (inl (Error "CodeMismatchException" "Code mismatch"), d)
    | _, _ => (inl (Error "InvalidParameterException" "Invalid parameters"), d)
    end
  else if String.eqb (command_name c) "AdminSetUserMFAPreference" then
    with_account d (get i "Username") (λ u a,
      let enabled := truthy (get (get i "SoftwareTokenMfaSettings") "Enabled") in
      (inr (Obj []),
       update u (λ a, Account (password a)
                              (if enabled then ENABLED else DISABLED)
                              (groups a)) d))
  else (inr (Obj []), d).

#[global] Instance client : Client state :=
  λ c d, match fault d c with
         | Some err => (inl err, d)
         | None => answer c d
         end.


Definition mfa_of (d : state) (u : string) : option enrollment :=
  mfa <$> accounts d !! u.

End Directory.

(** Running a computation from a directory state, with nothing sent yet. *)
Definition run {St A} (m : M St A) (d : St) : (error + A) * world St :=
  m (World d []).

(** ** Concrete inputs used by the examples *)

Definition cfg0 : config := Config "ap-southeast-2_pool" "client-id".

(** No [JWT_SECRET] in the environment; the clock reads 2023-11-14. *)
Definition e0 : env := Env None 1700000000123 "2023-11-14T22:13:20.123Z".

(** [alice] has no second factor and is enrolling (secret [SECRET], whose
    current code is [123456]); [bob] has MFA enabled and two groups. *)
Definition d0 : Directory.state :=
  Directory.State
    (<["alice" := Directory.Account "alice-pw" Directory.PENDING_VERIFICATION ["User"]]>
       (<["bob" := Directory.Account "bob-pw" Directory.ENABLED ["User"; "Moderator"]]> ∅))
    (<["SECRET" := "123456"]> ∅)
    Directory.no_fault.

(** The two failure results of [verifyToken] and a successful one. *)
Definition verify_failed (msg : string) : value :=
  Obj [("success", Bool false); ("error", Str msg)].

(** How often a group name occurs in a group list. *)
Definition occurrences (g : string) (l : list string) : nat :=
  length (filter (λ x, x = g) l).

(** A token made by someone who does not have the process key. *)
Definition forged : Jwt.token :=
  Jwt.sign [("username", Str "admin"); ("cognito:groups", Strs ["Admin"])]
           "attacker-key".

(** A token issued one day before the epoch, so that it expires at second
    0, and signed with the process key of [e0]. *)
Definition epoch_token : Jwt.token :=
  Jwt.sign [("username", Str "alice"); ("iat", Num (-86400)); ("exp", Num 0)]
           "your-secret-key".

(** The command [authenticateUser] sends for a user name and password. *)
Definition initiateAuth (cfg : config) (username password : string) : command :=
  AdminInitiateAuthCommand (Obj [
    ("UserPoolId", Str (userPoolId cfg));
    ("ClientId", Str (clientId cfg));
    ("AuthFlow", Str "ADMIN_NO_SRP_AUTH");
    ("AuthParameters", Obj [("USERNAME", Str username);
                            ("PASSWORD", Str password)]) ]).

(** The command [verifyMFA] sends first when it is given a setup secret. *)
Definition verifySetupCode (code : string) (secret : value) : command :=
  VerifySoftwareTokenCommand (Obj [
    ("UserCode", Str code);
    ("FriendlyDeviceName", Str "Authenticator App");
    ("Session", Null);
    ("SecretKey", secret) ]).

(** [d0] configured not to reveal which user names exist: a login for an
    unknown name is refused like a wrong password. *)
Definition d0_discreet : Directory.state :=
  Directory.State (Directory.accounts d0) (Directory.totp d0)
    (λ c, if String.eqb (command_name c) "AdminInitiateAuth" then
            match get (get (input c) "AuthParameters") "USERNAME" with
            | Str u =>
                match Directory.accounts d0 !! u with
                | Some _ => None
                | None => Some (Error "NotAuthorizedException"
                                      "Incorrect username or password.")
                end
            | _ => None
            end
          else None).

(** The environment of [e0] exactly 24 hours later (to the second). *)
Definition e0_at_expiry : env := Env None 1700086400000 "2023-11-15T22:13:20.000Z".

(** The commands the service methods send, named for use in statements. *)
Definition respondToChallenge (cfg : config) (username session code : string)
  : command :=
  AdminRespondToAuthChallengeCommand (Obj [
    ("UserPoolId", Str (userPoolId cfg));
    ("ClientId", Str (clientId cfg));
    ("ChallengeName", Str "SOFTWARE_TOKEN_MFA");
    ("Session", Str session);
    ("ChallengeResponses", Obj [("USERNAME", Str username);
                                ("SOFTWARE_TOKEN_MFA_CODE", Str code)]) ]).

Definition getUser (cfg : config) (username : value) : command :=
  AdminGetUserCommand (Obj [
    ("UserPoolId", Str (userPoolId cfg));
    ("Username", username) ]).

(** The token issued at [e0] for the user name [admin]. *)
Definition admin_token : Jwt.token :=
  CognitoService.generateJWT e0 (Obj [
    ("userId", Str "admin"); ("username", Str "admin"); ("email", Str "");
    ("role", Str "user"); ("cognito:groups", Arr []) ]).

(** The token the complete application hands to [alice] at [e0]. *)
Definition alice_token : Jwt.token :=
  CognitoService.generateJWT e0 (Obj [
    ("userId", Str "alice"); ("username", Str "alice"); ("email", Str "");
    ("role", Str "user"); ("cognito:groups", Arr []) ]).

(** The command a registration through the register routes sends. *)
Definition createUser (cfg : config) (username email password : value) : command :=
  AdminCreateUserCommand (Obj [
    ("UserPoolId", Str (userPoolId cfg));
    ("Username", username);
    ("UserAttributes", Arr [
       Obj [("Name", Str "email"); ("Value", email)];
       Obj [("Name", Str "email_verified"); ("Value", Str "true")];
       Obj [("Name", Str "custom:role"); ("Value", Str "user")] ]);
    ("TemporaryPassword", password);
    ("MessageAction", Str "SUPPRESS") ]).

(** The [Value] of the last item of an attribute list whose [Name] reads
    [n]; [undefined] when no item has that name. *)
Definition attribute_named (n : string) (items : list value) : value :=
  fold_left (λ found attr,
               if String.eqb (to_string (get attr "Name")) n then get attr "Value"
               else found)
            items Undefined.

(** Neither [null] nor [undefined]. *)
Definition defined (v : value) : Prop := v ≠ Undefined ∧ v ≠ Null.

(** An answer of the directory to [AdminGetUser] for [alice], whose email
    attribute is listed twice. *)
Definition alice_attributes : list value :=
  [ Obj [("Name", Str "email"); ("Value", Str "old@example.com")];
    Obj [("Name", Str "custom:role"); ("Value", Str "user")];
    Obj [("Name", Str "email"); ("Value", Str "new@example.com")] ].

Definition alice_record : value :=
  Obj [("Username", Str "alice"); ("UserAttributes", Arr alice_attributes)].

(** The default administrator of the local application, a table holding
    only that row, and a stand-in for [bcrypt.compare] which, like the one
    of [bcryptjs], rejects a password that is not a string. *)
Definition admin_row : LocalApp.user_row :=
  LocalApp.Row 1 "admin" "hash-of-admin123" (Str "admin").

Definition admin_only (username : value) : error + option LocalApp.user_row :=
  if is_str "admin" username then inr (Some admin_row) else inr None.

Definition typeof (v : value) : string :=
  match v with
  | Undefined => "undefined"
  | Bool _ => "boolean"
  | Num _ => "number"
  | Str _ => "string"
  | Null | Arr _ | Obj _ => "object"
  end.

Definition compare_by_prefix (password : value) (hash : string) : error + bool :=
  match password with
  | Str s => inr (String.eqb ("hash-of-" ++ s) hash)
  | _ => inl (Error "Error" ("Illegal arguments: " ++ typeof password ++ ", string"))
  end.

(** * Properties *)

(** Constructing a command: the lookup in [CognitoCommands] is computed. *)
Ltac construct :=
  cbn [new_command property CognitoCommands String.eqb Ascii.eqb Bool.eqb ret].

(** ** Numbers *)

Lemma lt_num_Num (x n : Z) : lt_num (Num x) n = (x <? n).
Proof. unfold lt_num, lt. cbn. by rewrite Z.mul_1_r. Qed.

(** ** The in-process group store *)

Section StoreFacts.
Import CognitoGroups.

Lemma existsb_member (required actual : list string) :
  existsb (λ group, bool_decide (group ∈ actual)) required = true
  ↔ ∃ g, g ∈ required ∧ g ∈ actual.
Proof.
  rewrite existsb_exists. split.
  - intros (g & Hin & Hg). exists g. split.
    + by apply list_elem_of_In.
    + by apply bool_decide_eq_true in Hg.
  - intros (g & Hin & Hg). exists g. split.
    + by apply list_elem_of_In.
    + by apply bool_decide_eq_true.
Qed.

(** For an authenticated caller (a truthy [username] claim),
    [requireGroup] lets the request through exactly when one of the
    required groups is among the groups the store holds for the caller
    (whatever the token claims); otherwise it answers 403 with the
    caller's own group list. A caller with no groups is always denied. *)
Lemma requireGroup_decides
    (a : allowed) (m : store) (user : value) :
  truthy (get user "username") = true →
  let actual := getUserGroups m (get user "username") in
  ((∃ user', requireGroup a m user = Next user')
     ↔ ∃ g, g ∈ groupsArray a ∧ g ∈ actual)
  ∧ ((∃ g, g ∈ groupsArray a ∧ g ∈ actual) →
       requireGroup a m user = Next (assign user "groups" (Strs actual)))
  ∧ (¬ (∃ g, g ∈ groupsArray a ∧ g ∈ actual) →
       requireGroup a m user =
         Reply (Response 403 (Obj [
           ("error", Str ("Insufficient permissions. Required groups: "
                            ++ join ", " (groupsArray a)));
           ("userGroups", Strs actual) ]) None))
  ∧ (actual = [] → ∃ r, requireGroup a m user = Reply r ∧ status r = 403).
Proof.
  intros Huser actual.
  assert (Hyes : (∃ g, g ∈ groupsArray a ∧ g ∈ actual) →
                 requireGroup a m user = Next (assign user "groups" (Strs actual))).
  { intros Hex. apply existsb_member in Hex.
    unfold requireGroup, JS.falsy. rewrite Huser. cbn [negb].
    fold actual. by rewrite Hex. }
  assert (Hno : ¬ (∃ g, g ∈ groupsArray a ∧ g ∈ actual) →
                requireGroup a m user =
                  Reply (Response 403 (Obj [
                    ("error", Str ("Insufficient permissions. Required groups: "
                                     ++ join ", " (groupsArray a)));
                    ("userGroups", Strs actual) ]) None)).
  { intros Hex. rewrite <- existsb_member in Hex.
    apply not_true_is_false in Hex.
    unfold requireGroup, JS.falsy. rewrite Huser. cbn [negb].
    fold actual. by rewrite Hex. }
  split; [|split; [exact Hyes|split; [exact Hno|]]].
  - split.
    + intros [user' Hnext].
      destruct (existsb (λ group, bool_decide (group ∈ actual)) (groupsArray a))
        eqn:Hsome.
      * by apply existsb_member.
      * rewrite Hno in Hnext; [discriminate|].
        rewrite <- existsb_member. by rewrite Hsome.
    + intros Hex. eexists. by apply Hyes.
  - intros Hempty. eexists. split.
    + apply Hno. intros (g & _ & Hg). rewrite Hempty in Hg.
      by apply not_elem_of_nil in Hg.
    + reflexivity.
Qed.

End StoreFacts.

Lemma arr_includes_Strs (groups : list string) (g : string) :
  arr_includes (map Str groups) g = true ↔ g ∈ groups.
Proof.
  unfold arr_includes. rewrite existsb_exists. split.
  - intros (x & Hin & Hx). apply in_map_iff in Hin as (s & <- & Hs).
    cbn in Hx. apply String.eqb_eq in Hx as ->. by apply list_elem_of_In.
  - intros Hg. exists (Str g). split.
    + apply in_map. by apply list_elem_of_In.
    + cbn. apply String.eqb_refl.
Qed.

(** C3, the claim refuted for the guard [authorizeGroup] of the complete
    application. [admin] holds the group [Admin] in the store and
    presents the token issued for that name, which passes
    [authenticateToken]; [authorizeGroup ('Admin')] refuses the request,
    because the token has no group claim. And its refusal of a caller
    whose claim lists [User] carries the error message only, not the
    caller's groups. *)
Lemma authorizeGroup_denies_store_member :
  let user := Jwt.decode admin_token in
  authenticateToken e0 (Some admin_token) = Next user
  ∧ get user "username" = Str "admin"
  ∧ "Admin" ∈ CognitoGroups.getUserGroups CognitoGroups.initial (get user "username")
  ∧ authorizeGroup "Admin" user
    = Reply (Response 403 (Obj [
        ("error", Str "Access denied: insufficient group privileges") ]) None)
  ∧ authorizeGroup "Admin"
      (Obj [("username", Str "user"); ("cognito:groups", Strs ["User"])])
    = Reply (Response 403 (Obj [
        ("error", Str "Access denied: insufficient group privileges") ]) None).
Proof.
  cbv zeta. split; [reflexivity|]. split; [reflexivity|].
  split; [|split; reflexivity].
  change (get (Jwt.decode admin_token) "username") with (Str "admin").
  vm_compute. apply list_elem_of_here.
Qed.

(** C3, as amended. [requireGroup] of [cognitoGroups.js] decides as the
    claim says: for an authenticated caller it lets the request through
    exactly when one of the required groups is among the groups the store
    holds for the caller, it answers 403 with the caller's own group list
    otherwise, and it denies a caller without groups. [authorizeGroup] of
    the complete application takes one group name and decides on the
    ['cognito:groups'] claim of the verified token alone, whatever the
    store holds: with a list of group names as the claim it lets the
    request through exactly when the required group is in the list, with
    no claim (or a falsy one) it refuses every request, and its refusal
    is 403 'Access denied: insufficient group privileges' without any
    group list. *)
Theorem group_guards_decide (a : CognitoGroups.allowed) (m : CognitoGroups.store)
    (requiredGroup : string) (user : value) :
  truthy (get user "username") = true →
  let actual := CognitoGroups.getUserGroups m (get user "username") in
  let refusal :=
    Reply (Response 403 (Obj [
      ("error", Str "Access denied: insufficient group privileges") ]) None) in
  (((∃ user', CognitoGroups.requireGroup a m user = Next user')
      ↔ ∃ g, g ∈ CognitoGroups.groupsArray a ∧ g ∈ actual)
   ∧ ((∃ g, g ∈ CognitoGroups.groupsArray a ∧ g ∈ actual) →
        CognitoGroups.requireGroup a m user = Next (assign user "groups" (Strs actual)))
   ∧ (¬ (∃ g, g ∈ CognitoGroups.groupsArray a ∧ g ∈ actual) →
        CognitoGroups.requireGroup a m user =
          Reply (Response 403 (Obj [
            ("error", Str ("Insufficient permissions. Required groups: "
                             ++ join ", " (CognitoGroups.groupsArray a)));
            ("userGroups", Strs actual) ]) None))
   ∧ (actual = [] →
        ∃ r, CognitoGroups.requireGroup a m user = Reply r ∧ status r = 403))
  ∧ (∀ claimed : list string,
       get user "cognito:groups" = Strs claimed →
       ((∃ user', authorizeGroup requiredGroup user = Next user')
          ↔ requiredGroup ∈ claimed)
       ∧ (requiredGroup ∈ claimed → authorizeGroup requiredGroup user = Next user)
       ∧ (requiredGroup ∉ claimed → authorizeGroup requiredGroup user = refusal))
  ∧ (truthy (get user "cognito:groups") = false →
       authorizeGroup requiredGroup user = refusal).
Proof.
  intros Huser actual refusal. split; [|split].
  - by apply requireGroup_decides.
  - intros claimed Hclaim. unfold authorizeGroup, refusal. rewrite Hclaim.
    cbn [Strs JS.either truthy].
    destruct (arr_includes (map Str claimed) requiredGroup) eqn:Hin; cbn [negb].
    + apply arr_includes_Strs in Hin. split; [|split]; [|done|done].
      split; [done|]. intros _. by eexists.
    + assert (Hno : requiredGroup ∉ claimed).
      { intros Hg. apply arr_includes_Strs in Hg. congruence. }
      split; [|split]; [|done|done].
      split; [intros [user' [=]]|done].
  - intros Hclaim. unfold authorizeGroup, refusal, JS.either. by rewrite Hclaim.
Qed.

Lemma group_guards_decide_witness :
  let user := Obj [("username", Str "admin")] in
  let actual := CognitoGroups.getUserGroups CognitoGroups.initial (Str "admin") in
  CognitoGroups.requireGroup (CognitoGroups.Single "Admin") CognitoGroups.initial user
    = Next (assign user "groups" (Strs actual))
  ∧ authorizeGroup "Admin" user
    = Reply (Response 403 (Obj [
        ("error", Str "Access denied: insufficient group privileges") ]) None).
Proof.
  intros user actual.
  destruct (group_guards_decide (CognitoGroups.Single "Admin") CognitoGroups.initial
              "Admin" user) as ((_ & Hyes & _) & _ & Hnone); [reflexivity|].
  split.
  - apply Hyes. exists "Admin". split; vm_compute; apply list_elem_of_here.
  - by apply Hnone.
Defined.

Section StoreUpdates.
Import CognitoGroups.

Lemma occurrences_absent g l : g ∉ l → occurrences g l = 0%nat.
Proof.
  unfold occurrences. induction l as [|x l IH]; intros Hg; [done|].
  apply not_elem_of_cons in Hg as [Hne Hg].
  rewrite filter_cons_False by congruence. by apply IH.
Qed.

Lemma occurrences_once g l : NoDup l → g ∈ l → occurrences g l = 1%nat.
Proof.
  unfold occurrences. induction 1 as [|x l Hx Hnd IH]; intros Hg.
  - by apply not_elem_of_nil in Hg.
  - destruct (decide (x = g)) as [->|Hne].
    + rewrite filter_cons_True by done. cbn. f_equal.
      exact (occurrences_absent g l Hx).
    + rewrite filter_cons_False by done.
      apply elem_of_cons in Hg as [Heq|Hg]; [congruence|]. by apply IH.
Qed.

Lemma getUserGroups_Str (m : store) (u : string) :
  getUserGroups m (Str u) = default [] (m !! u).
Proof. reflexivity. Qed.

Lemma getUserGroups_add (m : store) (u g : string) :
  getUserGroups (addUserToGroup m u g) (Str u)
  = if bool_decide (g ∈ getUserGroups m (Str u)) then getUserGroups m (Str u)
    else (getUserGroups m (Str u) ++ [g])%list.
Proof.
  rewrite !getUserGroups_Str. unfold addUserToGroup.
  case_bool_decide; [done|]. by rewrite lookup_insert_eq.
Qed.

Lemma getUserGroups_add_member (m : store) (u g : string) :
  g ∈ getUserGroups (addUserToGroup m u g) (Str u).
Proof.
  rewrite getUserGroups_add. case_bool_decide; [done|].
  apply elem_of_app. right. apply list_elem_of_here.
Qed.

(** Every group list of a reachable store is free of duplicates. *)
Lemma reachable_NoDup (m : store) :
  reachable m → ∀ u, NoDup (getUserGroups m (Str u)).
Proof.
  induction 1 as [|m u g _ IH|m u g _ IH]; intros v.
  - rewrite getUserGroups_Str. unfold initial.
    destruct (decide (v = "user")) as [->|Hu].
    { rewrite lookup_insert_eq. cbn. apply NoDup_singleton. }
    rewrite lookup_insert_ne by done.
    destruct (decide (v = "admin")) as [->|Ha].
    { rewrite lookup_insert_eq. cbn. apply NoDup_singleton. }
    rewrite lookup_insert_ne by done. rewrite lookup_empty. constructor.
  - destruct (decide (u = v)) as [<-|Hne].
    + rewrite getUserGroups_add. case_bool_decide as Hin; [apply IH|].
      apply NoDup_app. split; [apply IH|]. split; [|apply NoDup_singleton].
      intros x Hx Hx'. apply list_elem_of_singleton in Hx' as ->. done.
    + specialize (IH v). rewrite getUserGroups_Str in *.
      unfold addUserToGroup. case_bool_decide; [done|].
      by rewrite lookup_insert_ne.
  - specialize (IH v). rewrite getUserGroups_Str in *.
    unfold removeUserFromGroup.
    destruct (decide (u = v)) as [<-|Hne].
    + rewrite lookup_insert_eq. cbn. by apply NoDup_filter.
    + by rewrite lookup_insert_ne.
Qed.

Lemma filter_absent (g : string) (l : list string) :
  g ∉ l → filter (λ group, group ≠ g) l = l.
Proof.
  induction l as [|x l IH]; intros Hg; [done|].
  apply not_elem_of_cons in Hg as [Hne Hg].
  rewrite filter_cons_True by congruence. by rewrite IH.
Qed.

(** C9. In every store the module can reach, adding a user to a group
    twice leaves the same store as adding once, the user's group list then
    holds the group exactly once, and removing a group the user does not
    hold changes nobody's group list (both updates are total: they cannot
    fail). *)
Theorem group_updates_idempotent (m : store) (p g : string) :
  reachable m →
  addUserToGroup (addUserToGroup m p g) p g = addUserToGroup m p g
  ∧ occurrences g (getUserGroups (addUserToGroup m p g) (Str p)) = 1%nat
  ∧ occurrences g (getUserGroups (addUserToGroup (addUserToGroup m p g) p g) (Str p))
    = 1%nat
  ∧ (g ∉ getUserGroups m (Str p) →
     ∀ q, getUserGroups (removeUserFromGroup m p g) q = getUserGroups m q).
Proof.
  intros Hm.
  assert (Htwice : addUserToGroup (addUserToGroup m p g) p g = addUserToGroup m p g).
  { pose proof (getUserGroups_add_member m p g) as Hin.
    rewrite getUserGroups_Str in Hin.
    unfold addUserToGroup at 1. by rewrite bool_decide_eq_true_2. }
  assert (Honce : occurrences g (getUserGroups (addUserToGroup m p g) (Str p)) = 1%nat).
  { apply occurrences_once.
    - apply reachable_NoDup. by constructor.
    - apply getUserGroups_add_member. }
  split; [exact Htwice|]. split; [exact Honce|]. split; [by rewrite Htwice|].
  intros Hg q. destruct q as [| | | |u| |]; try reflexivity.
  rewrite !getUserGroups_Str in *. unfold removeUserFromGroup.
  destruct (decide (p = u)) as [<-|Hne].
  - rewrite lookup_insert_eq. cbn. by apply filter_absent.
  - by rewrite lookup_insert_ne.
Qed.

End StoreUpdates.

Lemma group_updates_idempotent_witness :
  CognitoGroups.addUserToGroup
    (CognitoGroups.addUserToGroup CognitoGroups.initial "user" "User") "user" "User"
  = CognitoGroups.addUserToGroup CognitoGroups.initial "user" "User".
Proof.
  apply (group_updates_idempotent CognitoGroups.initial "user" "User").
  apply CognitoGroups.reach_initial.
Defined.

(** ** Tokens: what [generateJWT] puts into a token *)

Lemma serialised_cons k v rest :
  Jwt.serialised ((k, v) :: rest)
  = match v with
    | Undefined => Jwt.serialised rest
    | _ => (k, json v) :: Jwt.serialised rest
    end.
Proof. destruct v; reflexivity. Qed.

Lemma json_defined v : v ≠ Undefined → json v ≠ Undefined.
Proof. destruct v; intros H; try done. Qed.

Lemma json_truthy v : truthy (json v) = truthy v.
Proof. destruct v; reflexivity. Qed.

(** A serialised property is the original one, unless that was
    [undefined] (then it is gone). *)
Lemma lookup_serialised payload k :
  NoDup (map fst payload) →
  lookup_prop (Jwt.serialised payload) k
  = match lookup_prop payload k with
    | Undefined => Undefined
    | v => json v
    end.
Proof.
  induction payload as [|[k' v] rest IH]; intros Hnd; [reflexivity|].
  apply NoDup_cons in Hnd as [Hk' Hnd]. rewrite serialised_cons.
  assert (Hrest : String.eqb k' k = true →
                  lookup_prop (Jwt.serialised rest) k = Undefined).
  { intros Heq. apply String.eqb_eq in Heq as ->. rewrite IH by done.
    clear IH Hnd. induction rest as [|[k'' v''] rest IH]; [reflexivity|].
    cbn in Hk'. apply not_elem_of_cons in Hk' as [Hne Hk'].
    cbn. destruct (String.eqb_spec k'' k) as [->|_]; [done|]. by apply IH. }
  cbn [lookup_prop].
  destruct (String.eqb k' k) eqn:Heq.
  - destruct v; cbn [lookup_prop]; rewrite ?Heq; try reflexivity.
    by apply Hrest.
  - destruct v; cbn [lookup_prop]; rewrite ?Heq; by apply IH.
Qed.

Lemma keys_serialised payload :
  map fst (Jwt.serialised payload)
  = map fst (filter (λ p, p.2 ≠ Undefined) payload).
Proof.
  induction payload as [|[k v] rest IH]; [reflexivity|].
  rewrite serialised_cons.
  destruct v;
    [ rewrite filter_cons_False by (cbn; congruence); exact IH
    | rewrite filter_cons_True by done; cbn [map fst]; f_equal; exact IH .. ].
Qed.

(** The claims object of an issued token, property by property. *)
Lemma issued_claim e userData k :
  get (Jwt.decode (CognitoService.generateJWT e userData)) k
  = if String.eqb "userId" k then
      match get userData "userId" with Undefined => Undefined | v => json v end
    else if String.eqb "username" k then
      match get userData "username" with Undefined => Undefined | v => json v end
    else if String.eqb "email" k then
      match get userData "email" with Undefined => Undefined | v => json v end
    else if String.eqb "role" k then
      match get userData "role" with Undefined => Str "user" | v => json v end
    else if String.eqb "iat" k then Num (now_seconds e)
    else if String.eqb "exp" k then Num (now_seconds e + 24 * 60 * 60)
    else Undefined.
Proof.
  unfold CognitoService.generateJWT, Jwt.sign, Jwt.decode, get at 1.
  rewrite lookup_serialised.
  2:{ cbn. refine (bool_decide_unpack _ _). vm_compute. exact I. }
  cbn [lookup_prop].
  repeat match goal with
         | |- context [String.eqb ?a k] => destruct (String.eqb a k); [|]
         end;
    try reflexivity.
  - by destruct (get userData "role").
Qed.

Lemma issued_signature e userData :
  Jwt.signed_with (JWT_SECRET e) (CognitoService.generateJWT e userData) = true.
Proof.
  unfold CognitoService.generateJWT, Jwt.sign, Jwt.signed_with.
  by apply bool_decide_eq_true.
Qed.

(** ** The guard [authenticateToken] *)

(** [jwt.verify] hands out the claims of the token it was given, and only
    for a token signed with the given key. *)
Lemma verify_accepts t secret clock payload :
  Jwt.verify t secret clock = inr payload →
  payload = Jwt.decode t ∧ Jwt.signed_with secret t = true.
Proof.
  destruct t as [raw|claims sig]; [discriminate|].
  unfold Jwt.verify.
  destruct (Jwt.signed_with secret (Jwt.Jws claims sig)); cbn [negb]; [|discriminate].
  intros H. split; [|reflexivity].
  repeat match type of H with
         | context [match ?x with _ => _ end] => destruct x; try discriminate
         end;
    by inversion H.
Qed.

Lemma verify_rejects_unsigned t secret clock :
  Jwt.signed_with secret t = false →
  ∃ failure, Jwt.verify t secret clock = inl failure.
Proof.
  intros Hsig. destruct t as [raw|claims sig]; [by eexists|].
  unfold Jwt.verify. rewrite Hsig. by eexists.
Qed.

Lemma authenticateToken_next e t user :
  authenticateToken e (Some t) = Next user →
  user = Jwt.decode t
  ∧ Jwt.signed_with (JWT_SECRET e) t = true
  ∧ truthy (get user "username") = true
  ∧ Jwt.verify t (JWT_SECRET e) (now_seconds e) = inr user.
Proof.
  unfold authenticateToken. intros H.
  assert (Hv : match Jwt.verify t (JWT_SECRET e) (now_seconds e) with
               | inl _ => json_error 403 "Invalid token"
               | inr user =>
                   if JS.falsy (get user "username")
                   then json_error 401 "Username missing in token"
                   else Next user
               end = Next user).
  { destruct t as [[|c raw]|claims sig]; [discriminate|exact H|exact H]. }
  clear H.
  destruct (Jwt.verify t (JWT_SECRET e) (now_seconds e)) as [f|p] eqn:Hver;
    [discriminate|].
  unfold JS.falsy in Hv.
  destruct (truthy (get p "username")) eqn:Hname; [|discriminate].
  inversion Hv; subst p.
  destruct (verify_accepts _ _ _ _ Hver) as [-> Hsig]. done.
Qed.

Lemma authenticateToken_unsigned e t :
  Jwt.signed_with (JWT_SECRET e) t = false →
  t ≠ Jwt.NotJws "" →
  authenticateToken e (Some t) = json_error 403 "Invalid token".
Proof.
  intros Hsig Hne.
  destruct (verify_rejects_unsigned t _ (now_seconds e) Hsig) as [f Hf].
  unfold authenticateToken.
  destruct t as [[|c raw]|claims sig]; [done| |]; by rewrite Hf.
Qed.

(** C5. Whatever [userData] is passed to [generateJWT] (with or without a
    ['cognito:groups'] property), the claims of the token are among
    [userId], [username], [email], [role], [iat], [exp], and are exactly
    these six when [userData] defines the first three; the token has no
    ['cognito:groups'] claim, so [authorizeGroup] answers 403 to every
    request authenticated with it, for every group. *)
Theorem issued_tokens_carry_no_groups (e : env) (userData : value) :
  let token := CognitoService.generateJWT e userData in
  (∀ k, k ∈ keys (Jwt.decode token) →
        k ∈ ["userId"; "username"; "email"; "role"; "iat"; "exp"])
  ∧ (get userData "userId" ≠ Undefined →
     get userData "username" ≠ Undefined →
     get userData "email" ≠ Undefined →
     keys (Jwt.decode token) = ["userId"; "username"; "email"; "role"; "iat"; "exp"])
  ∧ get (Jwt.decode token) "cognito:groups" = Undefined
  ∧ (∀ e' requiredGroup user,
       authenticateToken e' (Some token) = Next user →
       authorizeGroup requiredGroup user
       = json_error 403 "Access denied: insufficient group privileges")
  ∧ (∀ e' requiredGroup user,
       App.admin_guard e' requiredGroup (Some token) ≠ Next user).
Proof.
  intros token.
  assert (Hkeys : keys (Jwt.decode token)
                  = map fst (filter (λ p : string * value, p.2 ≠ Undefined)
                      [("userId", get userData "userId");
                       ("username", get userData "username");
                       ("email", get userData "email");
                       ("role", match get userData "role" with
                                | Undefined => Str "user"
                                | r => r
                                end);
                       ("iat", Num (now_seconds e));
                       ("exp", Num (now_seconds e + 24 * 60 * 60))])).
  { unfold token, CognitoService.generateJWT, Jwt.sign, Jwt.decode, keys.
    apply keys_serialised. }
  assert (Hgroups : get (Jwt.decode token) "cognito:groups" = Undefined).
  { unfold token. by rewrite issued_claim. }
  assert (Hdeny : ∀ e' requiredGroup user,
            authenticateToken e' (Some token) = Next user →
            authorizeGroup requiredGroup user
            = json_error 403 "Access denied: insufficient group privileges").
  { intros e' G user Hnext.
    apply authenticateToken_next in Hnext as (-> & _).
    unfold authorizeGroup. by rewrite Hgroups. }
  split; [|split; [|split; [exact Hgroups|split; [exact Hdeny|]]]].
  - intros k. rewrite Hkeys. intros Hk.
    apply list_elem_of_fmap in Hk as ([k' v] & -> & Hin).
    apply list_elem_of_filter in Hin as [_ Hin]. cbn.
    repeat (apply elem_of_cons in Hin as [Heq|Hin];
            [inversion Heq; subst; set_solver|]).
    by apply not_elem_of_nil in Hin.
  - intros Hid Hname Hmail. rewrite Hkeys.
    rewrite !filter_cons_True; [reflexivity|cbn..]; try done.
    by destruct (get userData "role").
  - intros e' G user. unfold App.admin_guard.
    destruct (authenticateToken e' (Some token)) as [u| |] eqn:Hauth; try done.
    rewrite (Hdeny e' G u Hauth). done.
Qed.

Lemma issued_tokens_carry_no_groups_witness :
  authorizeGroup "Admin"
    (Jwt.decode (CognitoService.generateJWT e0 (Obj [
       ("userId", Str "admin"); ("username", Str "admin"); ("email", Str "");
       ("role", Str "user"); ("cognito:groups", Strs ["Admin"]) ])))
  = json_error 403 "Access denied: insufficient group privileges".
Proof.
  destruct (issued_tokens_carry_no_groups e0 (Obj [
       ("userId", Str "admin"); ("username", Str "admin"); ("email", Str "");
       ("role", Str "user"); ("cognito:groups", Strs ["Admin"]) ]))
    as (_ & _ & _ & Hdeny & _).
  apply (Hdeny e0 "Admin"). reflexivity.
Defined.

(** Both token-issuing routes of the complete application hand out tokens
    made by [generateJWT]; the groups they pass in are therefore lost. *)
Lemma login_token_is_issued {St} `{!Client St} cfg e username password
    (w w' : world St) r t :
  App.login cfg e username password w = (inr r, w') →
  token r = Some t →
  ∃ userData, t = CognitoService.generateJWT e userData.
Proof.
  unfold App.login.
  destruct (JS.falsy (Str username) || JS.falsy (Str password)).
  { intros H; inversion H; subst; discriminate. }
  unfold try_catch, bind. construct.
  destruct (CognitoService.authenticateUser cfg e username password w)
    as [[err|result] w1].
  { intros H; inversion H; subst; discriminate. }
  destruct (truthy (get result "success")).
  { intros H Ht; inversion H; subst. cbn in Ht. inversion Ht. by eexists. }
  destruct (is_str "SMS_MFA" (get result "challengeName")
            || is_str "SOFTWARE_TOKEN_MFA" (get result "challengeName"));
    intros H; inversion H; subst; discriminate.
Qed.

Lemma mfa_challenge_token_is_issued {St} `{!Client St} cfg e username session code
    (w w' : world St) r t :
  App.mfa_challenge cfg e username session code w = (inr r, w') →
  token r = Some t →
  ∃ userData, t = CognitoService.generateJWT e userData.
Proof.
  unfold App.mfa_challenge.
  destruct (JS.falsy (Str username) || JS.falsy (Str session) || JS.falsy (Str code)).
  { intros H; inversion H; subst; discriminate. }
  unfold try_catch, bind. construct.
  destruct (CognitoService.respondToMFAChallenge cfg username session code w)
    as [[err|result] w1].
  { intros H; inversion H; subst; discriminate. }
  destruct (truthy (get result "success")).
  { intros H Ht; inversion H; subst. cbn in Ht. inversion Ht. by eexists. }
  intros H; inversion H; subst; discriminate.
Qed.

(** ** Round trip through [generateJWT] and [verifyToken] *)

(** Whatever groups are supplied at issuance, [verifyToken] reports an
    empty group list for the issued token (or the token has expired). *)
Lemma issued_token_verifies_without_groups e e' userData :
  let result := CognitoService.verifyToken e' (CognitoService.generateJWT e userData) in
  result = verify_failed "Token has expired"
  ∨ (get result "success" = Bool true
     ∧ get (get result "user") "groups" = Arr []).
Proof.
  intros result. unfold result, CognitoService.verifyToken.
  set (t := CognitoService.generateJWT e userData).
  assert (Hdec : JS.falsy (Jwt.decode t) = false) by reflexivity.
  rewrite Hdec.
  destruct (truthy (get (Jwt.decode t) "exp")
            && lt_num (get (Jwt.decode t) "exp") (now_seconds e')).
  - by left.
  - right. split; [reflexivity|]. cbn [get lookup_prop String.eqb Ascii.eqb Bool.eqb].
    unfold t. by rewrite issued_claim.
Qed.

(** C1 (the code falls short of the claim). A token issued for [alice]
    with groups [Admin] and [User], verified at once: the subject comes
    back, the groups come back empty. *)
Theorem roundtrip_loses_groups :
  CognitoService.verifyToken e0
    (CognitoService.generateJWT e0 (Obj [
       ("userId", Str "alice");
       ("username", Str "alice");
       ("email", Str "alice@example.com");
       ("role", Str "user");
       ("cognito:groups", Strs ["Admin"; "User"]) ]))
  = Obj [("success", Bool true);
         ("user", Obj [("userId", Str "alice");
                       ("username", Str "alice");
                       ("email", Str "alice@example.com");
                       ("groups", Arr []) ])].
Proof. reflexivity. Qed.

(** ** What the two verifiers check *)

Lemma verifyToken_cases e t :
  CognitoService.verifyToken e t
  = match t with
    | Jwt.NotJws _ => verify_failed "Invalid token format"
    | Jwt.Jws claims _ =>
        if truthy (get (Obj claims) "exp")
           && lt_num (get (Obj claims) "exp") (now_seconds e)
        then verify_failed "Token has expired"
        else
          Obj [("success", Bool true);
               ("user", Obj [
                  ("userId", JS.either (get (Obj claims) "sub") (get (Obj claims) "username"));
                  ("username", JS.either (get (Obj claims) "username")
                                     (get (Obj claims) "cognito:username"));
                  ("email", get (Obj claims) "email");
                  ("groups", JS.either (get (Obj claims) "cognito:groups") (Arr [])) ])]
    end.
Proof. destruct t; reflexivity. Qed.

(** C2, the claim refuted: a token signed with another key passes
    [verifyToken], which reports its subject and its groups. *)
Lemma verifyToken_accepts_forged_token :
  Jwt.signed_with (JWT_SECRET e0) forged = false
  ∧ CognitoService.verifyToken e0 forged
    = Obj [("success", Bool true);
           ("user", Obj [("userId", Str "admin");
                         ("username", Str "admin");
                         ("email", Undefined);
                         ("groups", Arr [Str "Admin"]) ])].
Proof. split; reflexivity. Qed.

(** C2, as amended. [verifyToken] only decodes: it fails with 'Invalid
    token format' exactly when the token does not decode, with 'Token has
    expired' exactly when the [exp] claim is truthy and, as a number,
    below the current second, and in every other case it succeeds,
    whatever the signature and with or without a subject, and returns the
    user it builds from the decoded claims ([userId] from [sub] or else
    [username], [username] from [username] or else [cognito:username],
    [email], [groups] from [cognito:groups] or else the empty list). The
    guard [authenticateToken] checks the signature
    with the process key: a token that is not signed with it (other key,
    altered claims), like any token [jwt.verify] rejects, gets the one
    answer 403 'Invalid token'; a verified token without [username] gets
    401 'Username missing in token'; only a token that passes both has its
    claims handed on. *)
Theorem verify_outcomes (e : env) :
  (∀ t, CognitoService.verifyToken e t = verify_failed "Invalid token format"
        ↔ Jwt.decode t = Null)
  ∧ (∀ t, CognitoService.verifyToken e t = verify_failed "Token has expired"
          ↔ truthy (get (Jwt.decode t) "exp")
            && lt_num (get (Jwt.decode t) "exp") (now_seconds e) = true)
  ∧ (∀ claims sig sig',
       CognitoService.verifyToken e (Jwt.Jws claims sig)
       = CognitoService.verifyToken e (Jwt.Jws claims sig'))
  ∧ (∀ t, Jwt.decode t ≠ Null →
       truthy (get (Jwt.decode t) "exp")
       && lt_num (get (Jwt.decode t) "exp") (now_seconds e) = false →
       CognitoService.verifyToken e t
       = Obj [("success", Bool true);
              ("user", Obj [
                 ("userId", JS.either (get (Jwt.decode t) "sub")
                                      (get (Jwt.decode t) "username"));
                 ("username", JS.either (get (Jwt.decode t) "username")
                                        (get (Jwt.decode t) "cognito:username"));
                 ("email", get (Jwt.decode t) "email");
                 ("groups", JS.either (get (Jwt.decode t) "cognito:groups")
                                      (Arr [])) ])])
  ∧ (∀ t, Jwt.signed_with (JWT_SECRET e) t = false → t ≠ Jwt.NotJws "" →
          authenticateToken e (Some t) = json_error 403 "Invalid token")
  ∧ (∀ payload key, key ≠ JWT_SECRET e →
       authenticateToken e (Some (Jwt.sign payload key))
       = json_error 403 "Invalid token")
  ∧ (∀ payload claims', claims' ≠ Jwt.serialised payload →
       authenticateToken e
         (Some (Jwt.Jws claims' (Jwt.Mac (JWT_SECRET e) (Jwt.serialised payload))))
       = json_error 403 "Invalid token")
  ∧ (∀ t failure, Jwt.verify t (JWT_SECRET e) (now_seconds e) = inl failure →
       t ≠ Jwt.NotJws "" →
       authenticateToken e (Some t) = json_error 403 "Invalid token")
  ∧ (∀ t user, Jwt.verify t (JWT_SECRET e) (now_seconds e) = inr user →
       truthy (get user "username") = false →
       authenticateToken e (Some t) = json_error 401 "Username missing in token")
  ∧ (∀ t user, Jwt.verify t (JWT_SECRET e) (now_seconds e) = inr user →
       truthy (get user "username") = true →
       authenticateToken e (Some t) = Next user)
  ∧ (∀ t user, authenticateToken e (Some t) = Next user →
       user = Jwt.decode t
       ∧ Jwt.signed_with (JWT_SECRET e) t = true
       ∧ truthy (get user "username") = true).
Proof.
  repeat split.
  - rewrite verifyToken_cases. destruct t as [raw|claims sig]; [done|].
    destruct (_ && _); discriminate.
  - intros Hnull. destruct t; [reflexivity|discriminate].
  - rewrite verifyToken_cases. destruct t as [raw|claims sig]; [discriminate|].
    cbn [Jwt.decode]. destruct (_ && _); [done|discriminate].
  - rewrite verifyToken_cases. destruct t as [raw|claims sig]; [discriminate|].
    cbn [Jwt.decode]. by intros ->.
  - intros t Hdecoded Hexp. rewrite verifyToken_cases.
    destruct t as [raw|claims sig]; [done|].
    cbn [Jwt.decode] in Hexp. by rewrite Hexp.
  - apply authenticateToken_unsigned.
  - intros payload key Hkey. apply authenticateToken_unsigned; [|done].
    unfold Jwt.sign, Jwt.signed_with. apply bool_decide_eq_false. congruence.
  - intros payload claims' Hne. apply authenticateToken_unsigned; [|done].
    unfold Jwt.signed_with. apply bool_decide_eq_false. congruence.
  - intros t failure Hver Hne. unfold authenticateToken.
    destruct t as [[|c raw]|claims sig]; [done| |]; by rewrite Hver.
  - intros t user Hver Hname. unfold authenticateToken, JS.falsy.
    destruct t as [[|c raw]|claims sig]; [discriminate| |]; by rewrite Hver, Hname.
  - intros t user Hver Hname. unfold authenticateToken, JS.falsy.
    destruct t as [[|c raw]|claims sig]; [discriminate| |]; by rewrite Hver, Hname.
  - by apply authenticateToken_next in H as (? & ? & ? & ?).
  - by apply authenticateToken_next in H as (? & ? & ? & ?).
  - by apply authenticateToken_next in H as (? & ? & ? & ?).
Qed.

Lemma verify_outcomes_witness :
  authenticateToken e0 (Some forged) = json_error 403 "Invalid token".
Proof.
  destruct (verify_outcomes e0) as (_ & _ & _ & _ & Hunsigned & _).
  apply Hunsigned.
  - reflexivity.
  - discriminate.
Defined.

(** ** Expiry *)

(** C6, the claim refuted. The guard [authenticateToken] refuses a token
    that is presented exactly at its expiry instant, and it does so with
    the answer it has for every token it rejects. *)
Lemma authenticateToken_refuses_token_at_expiry_instant :
  get (Jwt.decode (CognitoService.generateJWT e0 (Obj [("username", Str "alice")])))
      "exp"
  = Num (now_seconds e0_at_expiry)
  ∧ authenticateToken e0_at_expiry
      (Some (CognitoService.generateJWT e0 (Obj [("username", Str "alice")])))
    = json_error 403 "Invalid token"
  ∧ authenticateToken e0_at_expiry (Some forged) = json_error 403 "Invalid token".
Proof. repeat split. Qed.

(** The expiry test of [verifyToken] is guarded by [decoded.exp &&]: it is
    skipped for a token whose [exp] is 0, which is accepted long after
    second 0. *)
Example verifyToken_skips_expiry_test_at_zero :
  get (Jwt.decode epoch_token) "exp" = Num 0
  ∧ 0 < now_seconds e0
  ∧ CognitoService.verifyToken e0 epoch_token
    = Obj [("success", Bool true);
           ("user", Obj [("userId", Str "alice");
                         ("username", Str "alice");
                         ("email", Undefined);
                         ("groups", Arr []) ])].
Proof. repeat split. Qed.

Lemma verifyToken_expired_iff e claims sig x :
  get (Obj claims) "exp" = Num x → x ≠ 0 →
  CognitoService.verifyToken e (Jwt.Jws claims sig) = verify_failed "Token has expired"
  ↔ x < now_seconds e.
Proof.
  intros Hexp Hx. rewrite verifyToken_cases, Hexp, lt_num_Num.
  cbn [truthy].
  destruct (Z.eqb_spec x 0) as [|_]; [done|]. cbn [negb andb].
  destruct (Z.ltb_spec x (now_seconds e)); split; try done; lia.
Qed.

Lemma issued_verify e_issue userData secret clock :
  secret = JWT_SECRET e_issue →
  Jwt.verify (CognitoService.generateJWT e_issue userData) secret clock
  = if now_seconds e_issue + 24 * 60 * 60 <=? clock then inl Jwt.Expired
    else inr (Jwt.decode (CognitoService.generateJWT e_issue userData)).
Proof.
  intros ->.
  pose proof (issued_signature e_issue userData) as Hsig.
  pose proof (issued_claim e_issue userData "nbf") as Hnbf.
  pose proof (issued_claim e_issue userData "exp") as Hexp.
  cbn [String.eqb Ascii.eqb Bool.eqb] in Hnbf, Hexp.
  destruct (CognitoService.generateJWT e_issue userData) as [raw|claims sig];
    [discriminate|].
  unfold Jwt.verify. rewrite Hsig. cbn [negb Jwt.decode] in *.
  by rewrite Hnbf, Hexp.
Qed.

(** C6, as amended. For a token whose [exp] claim is a number other than
    0, [verifyToken] fails with 'Token has expired' exactly when the
    current second is beyond [exp]: the token is accepted through its
    expiry second. Every token issued by [generateJWT] at a non-negative
    clock has [exp = iat + 86400], not 0, so it is rejected exactly from
    the second after. The guard [authenticateToken] leaves expiry to
    [jwt.verify]: an issued token is refused (403 'Invalid token') from
    its expiry second on. *)
Theorem verifyToken_expiry (e : env) :
  (∀ claims sig x,
     get (Obj claims) "exp" = Num x → x ≠ 0 →
     (CognitoService.verifyToken e (Jwt.Jws claims sig)
        = verify_failed "Token has expired" ↔ x < now_seconds e)
     ∧ (now_seconds e ≤ x →
        get (CognitoService.verifyToken e (Jwt.Jws claims sig)) "success" = Bool true))
  ∧ (∀ e_issue userData,
       0 ≤ Date_now e_issue →
       get (Jwt.decode (CognitoService.generateJWT e_issue userData)) "exp"
         = Num (now_seconds e_issue + 86400)
       ∧ (CognitoService.verifyToken e (CognitoService.generateJWT e_issue userData)
            = verify_failed "Token has expired"
          ↔ now_seconds e_issue + 86400 < now_seconds e))
  ∧ (∀ e_issue userData,
       JWT_SECRET e = JWT_SECRET e_issue →
       truthy (get userData "username") = true →
       authenticateToken e (Some (CognitoService.generateJWT e_issue userData))
         = json_error 403 "Invalid token"
       ↔ now_seconds e_issue + 86400 ≤ now_seconds e).
Proof.
  split; [|split].
  - intros claims sig x Hexp Hx. split; [by apply verifyToken_expired_iff|].
    intros Hle. rewrite verifyToken_cases, Hexp, lt_num_Num.
    destruct (Z.ltb_spec x (now_seconds e)); [lia|].
    by rewrite andb_false_r.
  - intros e_issue userData Hclock.
    pose proof (issued_claim e_issue userData "exp") as Hexp.
    cbn [String.eqb Ascii.eqb Bool.eqb] in Hexp.
    change (24 * 60 * 60) with 86400 in Hexp. split; [exact Hexp|].
    assert (0 ≤ now_seconds e_issue) by (apply Z.div_pos; lia).
    destruct (CognitoService.generateJWT e_issue userData) as [raw|claims sig];
      [discriminate|].
    apply verifyToken_expired_iff; [exact Hexp|lia].
  - intros e_issue userData Hkey Hname.
    set (t := CognitoService.generateJWT e_issue userData).
    assert (Hguard : authenticateToken e (Some t)
                     = match Jwt.verify t (JWT_SECRET e) (now_seconds e) with
                       | inl _ => json_error 403 "Invalid token"
                       | inr user =>
                           if JS.falsy (get user "username")
                           then json_error 401 "Username missing in token"
                           else Next user
                       end) by reflexivity.
    rewrite Hguard. unfold t. rewrite issued_verify by done.
    change (24 * 60 * 60) with 86400.
    destruct (Z.leb_spec (now_seconds e_issue + 86400) (now_seconds e)).
    + done.
    + pose proof (issued_claim e_issue userData "username") as Huser.
      cbn [String.eqb Ascii.eqb Bool.eqb] in Huser.
      unfold JS.falsy. rewrite Huser.
      assert (Htruthy : truthy match get userData "username" with
                               | Undefined => Undefined
                               | v => json v
                               end = true).
      { destruct (get userData "username"); try done. }
      rewrite Htruthy. cbn [negb]. split; [discriminate|lia].
Qed.

Lemma verifyToken_expiry_witness :
  CognitoService.verifyToken (Env None 1700086401000 "2023-11-15T22:13:21.000Z")
    (CognitoService.generateJWT e0 (Obj [("username", Str "alice")]))
  = verify_failed "Token has expired".
Proof.
  destruct (verifyToken_expiry (Env None 1700086401000 "2023-11-15T22:13:21.000Z"))
    as (_ & Hissued & _).
  destruct (Hissued e0 (Obj [("username", Str "alice")])) as [_ Hiff].
  - vm_compute. discriminate.
  - apply Hiff. vm_compute. reflexivity.
Defined.

(** ** Login *)

Lemma authenticateUser_rejected {St} `{!Client St} cfg e username password
    (w : world St) err d' :
  client_send (initiateAuth cfg username password) (directory w) = (inl err, d') →
  CognitoService.authenticateUser cfg e username password w
  = (inl (Error "Error"
            (if String.eqb (name err) "NotAuthorizedException" then
               "Invalid username or password"
             else if String.eqb (name err) "UserNotConfirmedException" then
               "User account not confirmed"
             else if String.eqb (name err) "UserNotFoundException" then
               "User not found"
             else "Authentication failed: " ++ message err)),
     World d' (sent w ++ [initiateAuth cfg username password])%list).
Proof.
  intros Hsend.
  unfold CognitoService.authenticateUser, try_catch, bind, send. construct.
  fold (initiateAuth cfg username password). rewrite Hsend.
  destruct (String.eqb (name err) "NotAuthorizedException"); [reflexivity|].
  destruct (String.eqb (name err) "UserNotConfirmedException"); [reflexivity|].
  destruct (String.eqb (name err) "UserNotFoundException"); reflexivity.
Qed.

(** C4, the claim refuted: on a directory that reports an unknown user as
    such, the login of an unknown user and the login with a wrong password
    fail with different messages, at the service and at the route. *)
Lemma rejected_logins_are_told_apart :
  Directory.accounts d0 !! "nobody" = None
  ∧ fst (run (CognitoService.authenticateUser cfg0 e0 "nobody" "alice-pw") d0)
    = inl (Error "Error" "User not found")
  ∧ fst (run (CognitoService.authenticateUser cfg0 e0 "alice" "wrong") d0)
    = inl (Error "Error" "Invalid username or password")
  ∧ fst (run (App.login cfg0 e0 "nobody" "alice-pw") d0)
    = inr (Response 500 (Obj [("error", Str "User not found")]) None)
  ∧ fst (run (App.login cfg0 e0 "alice" "wrong") d0)
    = inr (Response 500 (Obj [("error", Str "Invalid username or password")]) None).
Proof. repeat split; vm_compute; reflexivity. Qed.

(** C4, as amended. The error of a rejected login is fixed by the name of
    the directory's exception: two logins rejected with
    [NotAuthorizedException] fail alike, with 'Invalid username or
    password', whatever the user names, passwords and exception messages;
    a login rejected with [UserNotFoundException] fails with 'User not
    found'. *)
Theorem rejected_logins_alike_under_same_exception
    {St} `{!Client St} cfg e
    (username1 password1 username2 password2 : string)
    (w1 w2 : world St) (err1 err2 : error) (d1 d2 : St) :
  client_send (initiateAuth cfg username1 password1) (directory w1) = (inl err1, d1) →
  client_send (initiateAuth cfg username2 password2) (directory w2) = (inl err2, d2) →
  (name err1 = "NotAuthorizedException" → name err2 = "NotAuthorizedException" →
   fst (CognitoService.authenticateUser cfg e username1 password1 w1)
     = inl (Error "Error" "Invalid username or password")
   ∧ fst (CognitoService.authenticateUser cfg e username2 password2 w2)
     = fst (CognitoService.authenticateUser cfg e username1 password1 w1))
  ∧ (name err1 = "UserNotFoundException" →
     fst (CognitoService.authenticateUser cfg e username1 password1 w1)
       = inl (Error "Error" "User not found")).
Proof.
  intros Hsend1 Hsend2.
  rewrite (authenticateUser_rejected _ _ _ _ _ _ _ Hsend1).
  rewrite (authenticateUser_rejected _ _ _ _ _ _ _ Hsend2).
  split.
  - intros -> ->. done.
  - intros ->. done.
Qed.

Lemma rejected_logins_alike_under_same_exception_witness :
  fst (CognitoService.authenticateUser cfg0 e0 "alice" "wrong" (World d0_discreet []))
  = fst (CognitoService.authenticateUser cfg0 e0 "nobody" "alice-pw" (World d0_discreet [])).
Proof.
  refine (proj2 (proj1 (rejected_logins_alike_under_same_exception
    cfg0 e0 "nobody" "alice-pw" "alice" "wrong"
    (World d0_discreet []) (World d0_discreet [])
    (Error "NotAuthorizedException" "Incorrect username or password.")
    (Error "NotAuthorizedException" "Incorrect username or password.")
    d0_discreet d0_discreet _ _) _ _)).
  - vm_compute. reflexivity.
  - vm_compute. reflexivity.
  - reflexivity.
  - reflexivity.
Defined.

(** ** Login with a second factor *)

(** For every directory: when it answers a login with a challenge, the
    service reports the challenge under [challenge] and [session], and
    sends one command. *)
Lemma authenticateUser_challenge {St} `{!Client St} cfg e username password
    (w : world St) result d' :
  client_send (initiateAuth cfg username password) (directory w) = (inr result, d') →
  truthy (get result "AuthenticationResult") = false →
  truthy (get result "ChallengeName") = true →
  CognitoService.authenticateUser cfg e username password w
  = (inr (Obj [("success", Bool false);
               ("challenge", get result "ChallengeName");
               ("session", get result "Session");
               ("parameters", get result "ChallengeParameters")]),
     World d' (sent w ++ [initiateAuth cfg username password])%list).
Proof.
  intros Hsend Hauth Hchallenge.
  unfold CognitoService.authenticateUser, try_catch, bind, send. construct.
  fold (initiateAuth cfg username password).
  by rewrite Hsend, Hauth, Hchallenge.
Qed.

(** The login route of the complete application looks for the challenge
    under [challengeName], where the service never puts it: every
    challenge ends as 401 'Authentication failed'. The route of
    [app-cloud.js] reads [challenge] and passes the challenge on. *)
Lemma login_on_challenge {St} `{!Client St} cfg e username password
    (w : world St) result d' :
  username ≠ "" → password ≠ "" →
  client_send (initiateAuth cfg username password) (directory w) = (inr result, d') →
  truthy (get result "AuthenticationResult") = false →
  truthy (get result "ChallengeName") = true →
  fst (App.login cfg e username password w)
    = inr (Response 401 (Obj [("error", Str "Authentication failed")]) None)
  ∧ fst (AppCloud.login cfg e username password w)
    = inr (Response 200 (Obj [("challenge", get result "ChallengeName");
                              ("session", get result "Session");
                              ("parameters", get result "ChallengeParameters")])
             None).
Proof.
  intros Hu Hp Hsend Hauth Hchallenge.
  pose proof (authenticateUser_challenge cfg e _ _ _ _ _ Hsend Hauth Hchallenge) as Hsvc.
  assert (Hfalsy : JS.falsy (Str username) || JS.falsy (Str password) = false).
  { unfold JS.falsy. cbn [truthy].
    destruct (String.eqb_spec username ""); [done|].
    destruct (String.eqb_spec password ""); done. }
  unfold App.login, AppCloud.login. rewrite Hfalsy.
  unfold try_catch, bind. construct. rewrite Hsvc.
  cbn [get lookup_prop String.eqb Ascii.eqb Bool.eqb truthy is_str orb fst].
  by rewrite Hchallenge.
Qed.

(** C7 (the code falls short of the claim). [bob] has MFA enabled and
    gives the right password: the service reports the challenge and its
    session, [app-cloud.js] passes them on (as does [initiateAuthWithMFA]
    of the MFA service), but the login route of the complete application
    answers 401 'Authentication failed', without challenge or session (and
    without a token). *)
Theorem login_with_mfa_loses_challenge :
  fst (run (CognitoService.authenticateUser cfg0 e0 "bob" "bob-pw") d0)
    = inr (Obj [("success", Bool false);
                ("challenge", Str "SOFTWARE_TOKEN_MFA");
                ("session", Str "session-for-bob");
                ("parameters", Obj [])])
  ∧ fst (run (App.login cfg0 e0 "bob" "bob-pw") d0)
    = inr (Response 401 (Obj [("error", Str "Authentication failed")]) None)
  ∧ fst (run (AppCloud.login cfg0 e0 "bob" "bob-pw") d0)
    = inr (Response 200 (Obj [("challenge", Str "SOFTWARE_TOKEN_MFA");
                              ("session", Str "session-for-bob");
                              ("parameters", Obj [])]) None)
  ∧ fst (run (MFAService.initiateAuthWithMFA cfg0 "bob" "bob-pw") d0)
    = inr (Obj [("success", Bool true);
                ("challengeName", Str "SOFTWARE_TOKEN_MFA");
                ("session", Str "session-for-bob");
                ("message", Str "MFA code required")]).
Proof. repeat split; vm_compute; reflexivity. Qed.

(** ** MFA enrolment *)

(** C8. When [verifyMFA] is given a setup secret and the directory rejects
    the code with [CodeMismatchException], the result is the failure
    'Invalid MFA code', the verification command is the only command sent
    (the command enabling the MFA preference is not), and the directory is
    left as the rejected verification left it: whatever that rejection
    leaves unchanged, the enrolment state for one, is unchanged after
    [verifyMFA]. *)
Theorem verifyMFA_mismatch_leaves_enrolment
    {St} `{!Client St} cfg (username code : string) (secret : value)
    (w : world St) (err : error) (d' : St) :
  truthy secret = true →
  client_send (verifySetupCode code secret) (directory w) = (inl err, d') →
  name err = "CodeMismatchException" →
  CognitoService.verifyMFA cfg username code secret w
  = (inr (Obj [("success", Bool false); ("error", Str "Invalid MFA code")]),
     World d' (sent w ++ [verifySetupCode code secret])%list)
  ∧ (∀ c, c ∈ sent (snd (CognitoService.verifyMFA cfg username code secret w)) →
          c ∈ sent w ∨ command_name c ≠ "AdminSetUserMFAPreference")
  ∧ (∀ A (enrolment : St → A),
       enrolment d' = enrolment (directory w) →
       enrolment (directory (snd (CognitoService.verifyMFA cfg username code secret w)))
       = enrolment (directory w)).
Proof.
  intros Hsecret Hsend Hname.
  assert (Hrun : CognitoService.verifyMFA cfg username code secret w
                 = (inr (Obj [("success", Bool false); ("error", Str "Invalid MFA code")]),
                    World d' (sent w ++ [verifySetupCode code secret])%list)).
  { unfold CognitoService.verifyMFA.
    assert (Hdef : match secret with Undefined => Null | s => s end = secret)
      by (destruct secret; done).
    rewrite Hdef, Hsecret.
    unfold try_catch, bind, send. construct. fold (verifySetupCode code secret).
    by rewrite Hsend, Hname. }
  rewrite Hrun. split; [reflexivity|]. split.
  - intros c Hc. cbn in Hc. apply elem_of_app in Hc as [Hc|Hc]; [by left|].
    apply list_elem_of_singleton in Hc as ->. by right.
  - intros A enrolment Hsame. exact Hsame.
Qed.

Lemma verifyMFA_mismatch_leaves_enrolment_witness :
  Directory.mfa_of d0 "alice" = Some Directory.PENDING_VERIFICATION
  ∧ CognitoService.verifyMFA cfg0 "alice" "000000" (Str "SECRET") (World d0 [])
    = (inr (Obj [("success", Bool false); ("error", Str "Invalid MFA code")]),
       World d0 [verifySetupCode "000000" (Str "SECRET")])
  ∧ Directory.mfa_of
      (directory (snd (CognitoService.verifyMFA cfg0 "alice" "000000" (Str "SECRET")
                         (World d0 []))))
      "alice"
    = Some Directory.PENDING_VERIFICATION.
Proof.
  destruct (verifyMFA_mismatch_leaves_enrolment cfg0 "alice" "000000" (Str "SECRET")
              (World d0 []) (Error "CodeMismatchException" "Code mismatch") d0)
    as (Hrun & _ & Hstate).
  - reflexivity.
  - vm_compute. reflexivity.
  - reflexivity.
  - split; [vm_compute; reflexivity|]. split; [exact Hrun|].
    rewrite (Hstate _ (λ d, Directory.mfa_of d "alice")); vm_compute; reflexivity.
Defined.

(** ** Role reassignment *)


(** * Further properties of the code *)

(** ** The group store: membership after an update *)

Section StoreMembership.
Import CognitoGroups.

(** After [addUserToGroup (u, g)], a user holds a group exactly if they
    held it before or they are [u] and the group is [g]: nobody else's
    groups change and [u] loses nothing. *)
Theorem addUserToGroup_membership (m : store) (u g v x : string) :
  x ∈ getUserGroups (addUserToGroup m u g) (Str v)
  ↔ x ∈ getUserGroups m (Str v) ∨ (v = u ∧ x = g).
Proof.
  destruct (decide (v = u)) as [->|Hne].
  - rewrite getUserGroups_add. case_bool_decide as Hin.
    + split; [by left|]. intros [Hx | [_ ->] ]; done.
    + rewrite elem_of_app, list_elem_of_singleton. split.
      * intros [Hx | ->]; [by left|by right].
      * intros [Hx | [_ ->] ]; [by left|by right].
  - rewrite !getUserGroups_Str. unfold addUserToGroup.
    case_bool_decide; [|rewrite lookup_insert_ne by done].
    + split; [by left|]. by intros [Hx | [? _] ].
    + split; [by left|]. by intros [Hx | [? _] ].
Qed.

(** After [removeUserFromGroup (u, g)], a user holds a group exactly if
    they held it before and it is not the group [g] of user [u]. *)
Theorem removeUserFromGroup_membership (m : store) (u g v x : string) :
  x ∈ getUserGroups (removeUserFromGroup m u g) (Str v)
  ↔ x ∈ getUserGroups m (Str v) ∧ ¬ (v = u ∧ x = g).
Proof.
  rewrite !getUserGroups_Str. unfold removeUserFromGroup.
  destruct (decide (v = u)) as [->|Hne].
  - rewrite lookup_insert_eq. cbn. rewrite list_elem_of_filter. split.
    + intros [Hx Hin]. split; [done|]. by intros [_ ->].
    + intros [Hin Hx]. split; [|done]. intros ->. by apply Hx.
  - rewrite lookup_insert_ne by done. split.
    + intros Hin. split; [done|]. by intros [? _].
    + by intros [Hin _].
Qed.

(** Adding a group the user does not hold and removing it again gives
    every user the group list they had, in the same order. *)
Theorem add_then_remove_restores (m : store) (u g : string) (q : value) :
  g ∉ getUserGroups m (Str u) →
  getUserGroups (removeUserFromGroup (addUserToGroup m u g) u g) q
  = getUserGroups m q.
Proof.
  intros Hg. destruct q as [| | | |v| |]; try reflexivity.
  rewrite !getUserGroups_Str in *. unfold removeUserFromGroup.
  destruct (decide (u = v)) as [<-|Hne].
  - rewrite lookup_insert_eq. cbn.
    pose proof (getUserGroups_add m u g) as Hadd.
    rewrite !getUserGroups_Str in Hadd. rewrite Hadd.
    rewrite bool_decide_eq_false_2 by done.
    rewrite filter_app. rewrite filter_absent by done.
    rewrite filter_cons_False by (intros H; by apply H).
    by rewrite filter_nil, app_nil_r.
  - rewrite lookup_insert_ne by done. unfold addUserToGroup.
    rewrite bool_decide_eq_false_2 by done. by rewrite lookup_insert_ne.
Qed.

(** The check [isUserInGroup] and the middleware [requireGroup] with a
    single group decide alike for an authenticated caller. *)
Theorem requireGroup_single_agrees_with_isUserInGroup
    (m : store) (user : value) (g : string) :
  truthy (get user "username") = true →
  (∃ user', requireGroup (Single g) m user = Next user')
  ↔ isUserInGroup m (get user "username") g = true.
Proof.
  intros Huser. unfold requireGroup, isUserInGroup, JS.falsy.
  rewrite Huser. cbn [negb groupsArray existsb]. rewrite orb_false_r.
  destruct (bool_decide (g ∈ getUserGroups m (get user "username"))); cbn [negb].
  - split; [done|]. intros _. by eexists.
  - split; [|done]. intros [user' H]. discriminate.
Qed.

Lemma lookup_assign_prop props k v k' :
  lookup_prop (assign_prop props k v) k'
  = if String.eqb k k' then v else lookup_prop props k'.
Proof.
  induction props as [|[k0 x] rest IH]; cbn.
  - by destruct (String.eqb k k').
  - destruct (String.eqb_spec k0 k) as [->|Hne]; cbn.
    + by destruct (String.eqb k k').
    + rewrite IH. destruct (String.eqb_spec k0 k') as [->|Hne'].
      * destruct (String.eqb_spec k k'); [congruence|done].
      * done.
Qed.

(** When [requireGroup] lets a request through, [req.user] has gained the
    caller's group list under [groups] and kept every other property. *)
Theorem requireGroup_attaches_groups
    (a : allowed) (m : store) (user user' : value) :
  requireGroup a m user = Next user' →
  get user' "groups" = Strs (getUserGroups m (get user "username"))
  ∧ ∀ k, k ≠ "groups" → get user' k = get user k.
Proof.
  unfold requireGroup. destruct (JS.falsy (get user "username")) eqn:Hname;
    [discriminate|].
  destruct (negb _); [discriminate|]. intros H. inversion H; subst user'.
  destruct user as [| | | | | |props]; try discriminate.
  cbn [assign get]. split.
  - by rewrite lookup_assign_prop.
  - intros k Hk. rewrite lookup_assign_prop.
    destruct (String.eqb_spec "groups" k); [congruence|done].
Qed.

(** In every store the module can reach, no group list has a duplicate. *)
Theorem reachable_stores_have_no_duplicates (m : store) (username : value) :
  reachable m → NoDup (getUserGroups m username).
Proof.
  intros Hm. destruct username as [| | | |u| |]; try apply NoDup_nil_2.
  by apply reachable_NoDup.
Qed.

End StoreMembership.

Lemma add_then_remove_restores_witness :
  CognitoGroups.getUserGroups
    (CognitoGroups.removeUserFromGroup
       (CognitoGroups.addUserToGroup CognitoGroups.initial "user" "Admin")
       "user" "Admin")
    (Str "user")
  = CognitoGroups.getUserGroups CognitoGroups.initial (Str "user").
Proof.
  apply (add_then_remove_restores CognitoGroups.initial "user" "Admin" (Str "user")).
  vm_compute. intros H. apply list_elem_of_singleton in H. discriminate.
Defined.

Lemma requireGroup_single_agrees_with_isUserInGroup_witness :
  (∃ user', CognitoGroups.requireGroup (CognitoGroups.Single "User")
              CognitoGroups.initial (Obj [("username", Str "user")]) = Next user')
  ↔ CognitoGroups.isUserInGroup CognitoGroups.initial (Str "user") "User" = true.
Proof.
  apply (requireGroup_single_agrees_with_isUserInGroup
           CognitoGroups.initial (Obj [("username", Str "user")]) "User").
  reflexivity.
Defined.

Lemma requireGroup_attaches_groups_witness :
  get (assign (Obj [("username", Str "admin"); ("role", Str "admin")]) "groups"
         (Strs ["Admin"])) "role"
  = Str "admin".
Proof.
  refine (proj2 (requireGroup_attaches_groups (CognitoGroups.Single "Admin")
            CognitoGroups.initial
            (Obj [("username", Str "admin"); ("role", Str "admin")]) _ _) "role" _).
  - reflexivity.
  - discriminate.
Defined.

Lemma reachable_stores_have_no_duplicates_witness :
  NoDup (CognitoGroups.getUserGroups
           (CognitoGroups.addUserToGroup CognitoGroups.initial "admin" "Admin")
           (Str "admin")).
Proof.
  apply reachable_stores_have_no_duplicates.
  apply CognitoGroups.reach_add, CognitoGroups.reach_initial.
Defined.

(** ** Errors of the service methods *)

Lemma try_catch_handled {St A} (m : M St A) (h : error → M St A) (w : world St) :
  (∀ err w', ∃ r, fst (h err w') = inr r) →
  ∃ r, fst (try_catch m h w) = inr r.
Proof.
  intros Hh. unfold try_catch.
  destruct (m w) as [[err|a] w']; [apply Hh|by eexists].
Qed.

Lemma try_catch_rethrown {St A} (m : M St A) (h : error → M St A) (w : world St) err :
  (∀ err0 w' err', fst (h err0 w') = inl err' → name err' = "Error") →
  fst (try_catch m h w) = inl err →
  name err = "Error".
Proof.
  intros Hh. unfold try_catch.
  destruct (m w) as [[err0|a] w']; [apply Hh|discriminate].
Qed.

(** No method of the MFA and groups revision throws: whatever the
    directory does, each of them returns a result. *)
Theorem mfa_revision_never_throws {St} `{!Client St} cfg (w : world St)
    (username code newRole session : string)
    (user secret groupName status limit paginationToken : value) :
  (∃ r, fst (CognitoService.getMFAStatus cfg user w) = inr r)
  ∧ (∃ r, fst (CognitoService.verifyMFA cfg username code secret w) = inr r)
  ∧ (∃ r, fst (CognitoService.disableMFA cfg username code w) = inr r)
  ∧ (∃ r, fst (CognitoService.listUsers cfg limit paginationToken w) = inr r)
  ∧ (∃ r, fst (CognitoService.addUserToGroup cfg username groupName w) = inr r)
  ∧ (∃ r, fst (CognitoService.removeUserFromGroup cfg username groupName w) = inr r)
  ∧ (∃ r, fst (CognitoService.listGroupsForUser cfg username w) = inr r)
  ∧ (∃ r, fst (CognitoService.updateUserRole cfg username newRole status w) = inr r)
  ∧ (∃ r, fst (CognitoService.respondToMFAChallenge cfg username session code w)
          = inr r).
Proof.
  repeat split; apply try_catch_handled; intros err w';
    try (by eexists).
  destruct (String.eqb (name err) "CodeMismatchException"); by eexists.
Qed.

(** Every error thrown by a method of the base revision is a plain
    [Error]: the directory's exception names never reach the caller. *)
Theorem base_revision_throws_plain_errors {St} `{!Client St} cfg e (w : world St)
    (username password : string) (user secret code userData attributes : value)
    (err : error) :
  (fst (CognitoService.authenticateUser cfg e username password w) = inl err
   ∨ fst (CognitoService.setUserPassword cfg user secret w) = inl err
   ∨ fst (CognitoService.registerUser cfg userData w) = inl err
   ∨ fst (CognitoService.getUserInfo cfg user w) = inl err
   ∨ fst (CognitoService.updateUserAttributes cfg username attributes w) = inl err
   ∨ fst (CognitoService.deleteUser cfg user w) = inl err
   ∨ fst (CognitoService.confirmUserRegistration cfg user code w) = inl err) →
  name err = "Error".
Proof.
  intros H.
  repeat (destruct H as [H|H]);
    (revert H; apply try_catch_rethrown; intros err0 w' err';
     repeat match goal with
            | |- context [if ?b then _ else _] => destruct b
            end;
     cbn; intros Heq; by inversion Heq).
Qed.

Lemma base_revision_throws_plain_errors_witness :
  name (Error "Error" "User not found") = "Error".
Proof.
  apply (base_revision_throws_plain_errors cfg0 e0 (World d0 [])
           "nobody" "pw" Undefined Undefined Undefined Undefined Undefined).
  left. vm_compute. reflexivity.
Defined.

(** ** Login: from the directory's answer to an accepted token *)

(** What [authenticateUser] returns comes from one answer of the
    directory: a success only for an answer with an authentication result,
    a challenge only for an answer with a challenge name. *)
Lemma authenticateUser_returns {St} `{!Client St} cfg e username password
    (w w' : world St) result :
  CognitoService.authenticateUser cfg e username password w = (inr result, w') →
  ∃ out d',
    client_send (initiateAuth cfg username password) (directory w) = (inr out, d')
    ∧ w' = World d' (sent w ++ [initiateAuth cfg username password])%list
    ∧ ((truthy (get out "AuthenticationResult") = true
        ∧ get result "success" = Bool true
        ∧ get (get result "user") "username" = Str username
        ∧ get (get result "user") "email" = Undefined
        ∧ get (get result "user") "groups" = Undefined)
       ∨ (truthy (get out "AuthenticationResult") = false
          ∧ truthy (get out "ChallengeName") = true
          ∧ get result "success" = Bool false)).
Proof.
  unfold CognitoService.authenticateUser, try_catch, bind, send, ret. construct.
  fold (initiateAuth cfg username password).
  destruct (client_send (initiateAuth cfg username password) (directory w))
    as [[err|out] d'] eqn:Hsend.
  { destruct (String.eqb (name err) "NotAuthorizedException"); [discriminate|].
    destruct (String.eqb (name err) "UserNotConfirmedException"); [discriminate|].
    destruct (String.eqb (name err) "UserNotFoundException"); discriminate. }
  destruct (truthy (get out "AuthenticationResult")) eqn:Hauth.
  { intros H. inversion H; subst. exists out, d'. split; [done|]. split; [done|].
    left. repeat split; done. }
  destruct (truthy (get out "ChallengeName")) eqn:Hch.
  { intros H. inversion H; subst. exists out, d'. split; [done|]. split; [done|].
    right. repeat split; done. }
  cbn. discriminate.
Qed.

Lemma nonempty_fields username password :
  JS.falsy (Str username) || JS.falsy (Str password) = false →
  username ≠ "" ∧ password ≠ "".
Proof.
  unfold JS.falsy. cbn [truthy].
  destruct (String.eqb_spec username ""); [done|].
  destruct (String.eqb_spec password ""); [by rewrite orb_true_r|done].
Qed.

(** The token of a login answer, in either application: the user name is
    not empty, the directory answered the login with an authentication
    result, and the token is the one [generateJWT] makes for that user
    name. *)
Lemma login_token {St} `{!Client St} cfg e username password
    (w w' : world St) r t :
  (App.login cfg e username password w = (inr r, w')
   ∨ AppCloud.login cfg e username password w = (inr r, w')) →
  token r = Some t →
  username ≠ ""
  ∧ (∃ out d',
       client_send (initiateAuth cfg username password) (directory w) = (inr out, d')
       ∧ truthy (get out "AuthenticationResult") = true)
  ∧ status r = 200
  ∧ ∃ extra,
      t = CognitoService.generateJWT e (Obj (
            [("userId", Str username); ("username", Str username);
             ("email", Str ""); ("role", Str "user")] ++ extra)%list).
Proof.
  intros Hlogin Ht.
  assert (Hvalid : JS.falsy (Str username) || JS.falsy (Str password) = false).
  { destruct (JS.falsy (Str username) || JS.falsy (Str password)) eqn:Hv; [|done].
    unfold App.login, AppCloud.login in Hlogin. rewrite Hv in Hlogin.
    destruct Hlogin as [H|H]; inversion H; subst; discriminate. }
  destruct (nonempty_fields _ _ Hvalid) as [Hu _]. split; [exact Hu|].
  unfold App.login, AppCloud.login in Hlogin. rewrite Hvalid in Hlogin.
  unfold try_catch, bind in Hlogin.
  destruct (CognitoService.authenticateUser cfg e username password w)
    as [[err|result] w1] eqn:Hsvc.
  { destruct Hlogin as [H|H]; inversion H; subst; discriminate. }
  destruct (authenticateUser_returns _ _ _ _ _ _ _ Hsvc)
    as (out & d' & Hsend & _ & [(Hauth & Hok & Hname & Hmail & Hgroups)|(_ & _ & Hno)]).
  - rewrite Hok, Hname, Hmail, Hgroups in Hlogin. cbn [truthy JS.either] in Hlogin.
    split; [by exists out, d'|].
    destruct Hlogin as [H|H]; inversion H; subst; cbn in Ht; inversion Ht; subst.
    + split; [done|]. by exists [("cognito:groups", Arr [])].
    + split; [done|]. by exists [].
  - rewrite Hno in Hlogin. cbn [truthy] in Hlogin.
    destruct Hlogin as [H|H].
    + destruct (is_str "SMS_MFA" (get result "challengeName")
                || is_str "SOFTWARE_TOKEN_MFA" (get result "challengeName"));
        inversion H; subst; discriminate.
    + destruct (truthy (get result "challenge")); inversion H; subst; discriminate.
Qed.

(** A token is handed out by a login route only after the directory
    answered that very login with an authentication result. *)
Theorem login_token_needs_directory_approval {St} `{!Client St} cfg e
    username password (w w' : world St) r t :
  (App.login cfg e username password w = (inr r, w')
   ∨ AppCloud.login cfg e username password w = (inr r, w')) →
  token r = Some t →
  ∃ out d',
    client_send (initiateAuth cfg username password) (directory w) = (inr out, d')
    ∧ truthy (get out "AuthenticationResult") = true.
Proof.
  intros Hlogin Ht. by destruct (login_token _ _ _ _ _ _ _ _ Hlogin Ht) as (_ & ? & _).
Qed.

(** The token of a login answer is accepted by [authenticateToken] for the
    next 24 hours (same signing key), as the user who logged in. *)
Theorem login_token_authenticates {St} `{!Client St} cfg e username password
    (w w' : world St) r t (e' : env) :
  (App.login cfg e username password w = (inr r, w')
   ∨ AppCloud.login cfg e username password w = (inr r, w')) →
  token r = Some t →
  JWT_SECRET e' = JWT_SECRET e →
  now_seconds e' < now_seconds e + 86400 →
  ∃ user,
    authenticateToken e' (Some t) = Next user
    ∧ get user "username" = Str username
    ∧ get user "userId" = Str username
    ∧ get user "exp" = Num (now_seconds e + 86400).
Proof.
  intros Hlogin Ht Hkey Hfresh.
  destruct (login_token _ _ _ _ _ _ _ _ Hlogin Ht) as (Hu & _ & _ & extra & ->).
  set (userData := Obj ([("userId", Str username); ("username", Str username);
                         ("email", Str ""); ("role", Str "user")] ++ extra)%list).
  exists (Jwt.decode (CognitoService.generateJWT e userData)).
  assert (Hguard : authenticateToken e' (Some (CognitoService.generateJWT e userData))
                   = match Jwt.verify (CognitoService.generateJWT e userData)
                             (JWT_SECRET e') (now_seconds e') with
                     | inl _ => json_error 403 "Invalid token"
                     | inr user =>
                         if JS.falsy (get user "username")
                         then json_error 401 "Username missing in token"
                         else Next user
                     end) by reflexivity.
  rewrite Hguard, issued_verify by done.
  change (24 * 60 * 60) with 86400.
  destruct (Z.leb_spec (now_seconds e + 86400) (now_seconds e')); [lia|].
  rewrite !issued_claim. cbn [String.eqb Ascii.eqb Bool.eqb].
  change (get userData "username") with (Str username).
  change (get userData "userId") with (Str username).
  cbn [json]. unfold JS.falsy. cbn [truthy].
  destruct (String.eqb_spec username ""); [done|]. done.
Qed.

Lemma login_token_needs_directory_approval_witness :
  ∃ out d',
    client_send (initiateAuth cfg0 "alice" "alice-pw") (directory (World d0 []))
      = (inr out, d')
    ∧ truthy (get out "AuthenticationResult") = true.
Proof.
  refine (login_token_needs_directory_approval cfg0 e0 "alice" "alice-pw"
            (World d0 []) _ _ alice_token (or_introl _) _).
  - lazy. reflexivity.
  - reflexivity.
Defined.

Lemma login_token_authenticates_witness :
  ∃ user,
    authenticateToken e0 (Some alice_token) = Next user
    ∧ get user "username" = Str "alice"
    ∧ get user "userId" = Str "alice"
    ∧ get user "exp" = Num (now_seconds e0 + 86400).
Proof.
  refine (login_token_authenticates cfg0 e0 "alice" "alice-pw"
            (World d0 []) _ _ alice_token e0 (or_introl _) _ _ _).
  - lazy. reflexivity.
  - reflexivity.
  - reflexivity.
  - vm_compute. reflexivity.
Defined.

(** The login route talks to the directory exactly once, with the login
    command, when both fields are present, and not at all otherwise (it
    then answers 400). *)
Theorem login_sends_one_command {St} `{!Client St} cfg e username password
    (w : world St) :
  (username = "" ∨ password = "" →
   App.login cfg e username password w
   = (inr (Response 400 (Obj [("error", Str "Username and password are required")])
             None), w))
  ∧ (username ≠ "" → password ≠ "" →
     sent (snd (App.login cfg e username password w))
     = (sent w ++ [initiateAuth cfg username password])%list).
Proof.
  split.
  - intros Hempty. unfold App.login, JS.falsy. cbn [truthy].
    destruct Hempty as [-> | ->]; cbn; [done|].
    by rewrite orb_true_r.
  - intros Hu Hp. unfold App.login, JS.falsy. cbn [truthy].
    destruct (String.eqb_spec username ""); [done|].
    destruct (String.eqb_spec password ""); [done|]. cbn [negb orb].
    unfold try_catch, bind. construct.
    unfold CognitoService.authenticateUser, try_catch, bind, send, ret, throw. construct.
    fold (initiateAuth cfg username password).
    destruct (client_send (initiateAuth cfg username password) (directory w))
      as [[err|out] d'].
    + destruct (String.eqb (name err) "NotAuthorizedException"); [done|].
      destruct (String.eqb (name err) "UserNotConfirmedException"); [done|].
      destruct (String.eqb (name err) "UserNotFoundException"); done.
    + destruct (truthy (get out "AuthenticationResult")); [done|].
      destruct (truthy (get out "ChallengeName")); [|done].
      cbn [get lookup_prop String.eqb Ascii.eqb Bool.eqb truthy].
      by destruct (is_str "SMS_MFA" Undefined || is_str "SOFTWARE_TOKEN_MFA" Undefined).
Qed.

Lemma login_sends_one_command_witness :
  App.login cfg0 e0 "" "alice-pw" (World d0 [])
  = (inr (Response 400 (Obj [("error", Str "Username and password are required")])
            None), World d0 []).
Proof.
  apply (login_sends_one_command cfg0 e0 "" "alice-pw" (World d0 [])).
  by left.
Defined.

(** The MFA challenge route hands out a token only after the directory
    answered the challenge response with an authentication result; the
    token is then the one [generateJWT] makes for the user name of the
    request, with an empty group list passed in. *)
Theorem mfa_challenge_token_needs_directory_approval {St} `{!Client St} cfg e
    username session code (w w' : world St) r t :
  App.mfa_challenge cfg e username session code w = (inr r, w') →
  token r = Some t →
  (∃ out d',
     client_send (respondToChallenge cfg username session code) (directory w)
       = (inr out, d')
     ∧ truthy (get out "AuthenticationResult") = true)
  ∧ t = CognitoService.generateJWT e (Obj [
          ("userId", Str username); ("username", Str username);
          ("email", Str ""); ("role", Str "user"); ("cognito:groups", Arr []) ]).
Proof.
  unfold App.mfa_challenge.
  destruct (JS.falsy (Str username) || JS.falsy (Str session) || JS.falsy (Str code)).
  { intros H; inversion H; subst; discriminate. }
  unfold try_catch, bind. construct.
  unfold CognitoService.respondToMFAChallenge, try_catch, bind, send, ret. construct.
  fold (respondToChallenge cfg username session code).
  destruct (client_send (respondToChallenge cfg username session code) (directory w))
    as [[err|out] d'] eqn:Hsend.
  { cbn. intros H; inversion H; subst; discriminate. }
  destruct (truthy (get out "AuthenticationResult")) eqn:Hauth.
  - cbn. intros H Ht; inversion H; subst. cbn in Ht. inversion Ht.
    split; [|done]. by exists out, d'.
  - cbn. intros H; inversion H; subst; discriminate.
Qed.

Lemma mfa_challenge_token_needs_directory_approval_witness :
  (∃ out d',
     client_send (respondToChallenge cfg0 "bob" "session-for-bob" "123456")
       (directory (World [inr (Obj [("AuthenticationResult",
                                     Obj [("AccessToken", Str "a")])])] []))
       = (inr out, d')
     ∧ truthy (get out "AuthenticationResult") = true)
  ∧ CognitoService.generateJWT e0 (Obj [
      ("userId", Str "bob"); ("username", Str "bob");
      ("email", Str ""); ("role", Str "user"); ("cognito:groups", Arr []) ])
    = CognitoService.generateJWT e0 (Obj [
        ("userId", Str "bob"); ("username", Str "bob");
        ("email", Str ""); ("role", Str "user"); ("cognito:groups", Arr []) ]).
Proof.
  refine (mfa_challenge_token_needs_directory_approval cfg0 e0
            "bob" "session-for-bob" "123456"
            (World [inr (Obj [("AuthenticationResult",
                               Obj [("AccessToken", Str "a")])])] [])
            _ _ _ _ _).
  - lazy. reflexivity.
  - reflexivity.
Defined.

(** ** The routes always answer *)

(** No route handler throws: whatever the directory does, the request gets
    an answer. *)
Theorem routes_always_answer {St} `{!Client St} cfg e (w : world St)
    (username password session code : string) (body user : value) :
  (∃ r, fst (App.login cfg e username password w) = inr r)
  ∧ (∃ r, fst (App.mfa_challenge cfg e username session code w) = inr r)
  ∧ (∃ r, fst (App.register cfg body w) = inr r)
  ∧ (∃ r, fst (App.auth_user cfg user w) = inr r)
  ∧ (∃ r, fst (App.users_profile cfg user w) = inr r)
  ∧ (∃ r, fst (AppCloud.login cfg e username password w) = inr r)
  ∧ (∃ r, fst (AppCloud.register cfg body w) = inr r).
Proof.
  unfold App.login, App.mfa_challenge, App.register, App.auth_user,
    App.users_profile, AppCloud.login, AppCloud.register.
  repeat split;
    repeat match goal with
           | |- context [if ?b then ret _ else try_catch _ _] => destruct b
           end;
    try (by eexists);
    apply try_catch_handled; intros err w'; by eexists.
Qed.

(** ** Registration *)

(** The register route of the complete application passes [group: 'User']
    to [registerUser], which does not read it: the route does exactly what
    the route of [app-cloud.js] does. *)
Theorem register_ignores_group {St} `{!Client St} cfg (body : value) (w : world St) :
  App.register cfg body w = AppCloud.register cfg body w.
Proof. reflexivity. Qed.

(** [registerUser] on the object the register route builds, in terms of
    the directory's answer to the creation command. The password step
    fails before it sends anything: [CognitoCommands] has no
    [AdminSetUserPasswordCommand]. *)
Lemma registerUser_route {St} `{!Client St} cfg (username email password : value)
    (w : world St) :
  CognitoService.registerUser cfg (Obj [
      ("username", username); ("email", email); ("password", password);
      ("attributes", Obj [("custom:role", Str "user")]); ("group", Str "User") ]) w
  = match client_send (createUser cfg username email password) (directory w) with
    | (inl err, d') =>
        (inl (Error "Error"
                (if String.eqb (name err) "UsernameExistsException" then
                   "Username already exists"
                 else if String.eqb (name err) "InvalidParameterException" then
                   "Invalid user data provided"
                 else "User registration failed: " ++ message err)),
         World d' (sent w ++ [createUser cfg username email password])%list)
    | (inr out, d') =>
        (inl (Error "Error"
                "User registration failed: Failed to set password: CognitoCommands.AdminSetUserPasswordCommand is not a constructor"),
         World d' (sent w ++ [createUser cfg username email password])%list)
    end.
Proof.
  unfold CognitoService.registerUser, CognitoService.setUserPassword.
  unfold try_catch, bind, send, ret, throw, entries. construct.
  cbn -[String.append app].
  fold (createUser cfg username email password).
  destruct (client_send (createUser cfg username email password) (directory w))
    as [[err|out] d'].
  - by destruct (String.eqb (name err) "UsernameExistsException"),
      (String.eqb (name err) "InvalidParameterException").
  - reflexivity.
Qed.

(** What a registration with all three fields does. It sends the creation
    command and nothing else, and it is always answered 500: a refused
    creation of an existing user name with 'Username already exists', and
    an accepted creation with the failure of the password step, which
    cannot construct its command; the user has been created all the
    same. *)
Theorem register_outcomes {St} `{!Client St} cfg (body : value) (w : world St) :
  let username := get body "username" in
  let email := get body "email" in
  let password := get body "password" in
  truthy username = true → truthy email = true → truthy password = true →
  sent (snd (App.register cfg body w))
    = (sent w ++ [createUser cfg username email password])%list
  ∧ (∃ msg, fst (App.register cfg body w)
            = inr (Response 500 (Obj [("error", Str msg)]) None))
  ∧ (∀ err d',
       client_send (createUser cfg username email password) (directory w)
         = (inl err, d') →
       name err = "UsernameExistsException" →
       fst (App.register cfg body w)
       = inr (Response 500 (Obj [("error", Str "Username already exists")]) None))
  ∧ (∀ out d',
       client_send (createUser cfg username email password) (directory w)
         = (inr out, d') →
       App.register cfg body w
       = (inr (Response 500 (Obj [
                 ("error", Str "User registration failed: Failed to set password: CognitoCommands.AdminSetUserPasswordCommand is not a constructor") ])
                 None),
          World d' (sent w ++ [createUser cfg username email password])%list)).
Proof.
  intros username email password Hu Hm Hp.
  assert (Hroute : App.register cfg body w
    = match CognitoService.registerUser cfg (Obj [
              ("username", username); ("email", email); ("password", password);
              ("attributes", Obj [("custom:role", Str "user")]);
              ("group", Str "User") ]) w with
      | (inl err, w') =>
          (inr (Response 500 (Obj [("error", Str (message err))]) None), w')
      | (inr result, w') =>
          (inr (if truthy (get result "success") then
                  Response 200 (Obj [("message", Str "User registered successfully");
                                     ("user", get result "user")]) None
                else
                  Response 400 (Obj [
                    ("error", JS.either (get result "error")
                                (Str "Registration failed")) ]) None), w')
      end).
  { unfold App.register, JS.falsy. fold username email password.
    rewrite Hu, Hm, Hp. cbn [negb orb]. unfold try_catch, bind, ret.
    destruct (CognitoService.registerUser _ _ w) as [[err|result] w']; [done|].
    by destruct (truthy (get result "success")). }
  rewrite Hroute, registerUser_route. clear Hroute.
  destruct (client_send (createUser cfg username email password) (directory w))
    as [[err|out] d'] eqn:Hcreate.
  - split; [reflexivity|]. split; [by eexists|]. split.
    + intros err' d'' [= <- <-] Hname. cbn [fst message]. by rewrite Hname.
    + intros out d'' [=].
  - split; [reflexivity|]. split; [by eexists|]. split.
    + intros err d'' [=].
    + by intros out' d'' [= <- <-].
Qed.

Lemma register_outcomes_witness :
  App.register cfg0
    (Obj [("username", Str "dora"); ("email", Str "dora@example.com");
          ("password", Str "dora-pw")])
    (World [inr (Obj [("User", Obj [("Username", Str "dora")])])] [])
  = (inr (Response 500 (Obj [
            ("error", Str "User registration failed: Failed to set password: CognitoCommands.AdminSetUserPasswordCommand is not a constructor") ])
            None),
     World [] [createUser cfg0 (Str "dora") (Str "dora@example.com") (Str "dora-pw")]).
Proof.
  refine (proj2 (proj2 (proj2 (register_outcomes cfg0
            (Obj [("username", Str "dora"); ("email", Str "dora@example.com");
                  ("password", Str "dora-pw")])
            (World [inr (Obj [("User", Obj [("Username", Str "dora")])])] [])
            _ _ _)))
          (Obj [("User", Obj [("Username", Str "dora")])]) [] _);
    reflexivity.
Defined.

(** ** User information *)

Lemma get_assign_key props key v n :
  n ≠ "__proto__" →
  get (assign_key (Obj props) key v) n
  = if String.eqb (to_string key) n then v else get (Obj props) n.
Proof.
  intros Hn. unfold assign_key.
  destruct (String.eqb_spec (to_string key) "__proto__") as [Hproto|_].
  - destruct (String.eqb_spec (to_string key) n); [congruence|done].
  - cbn [assign get]. apply lookup_assign_prop.
Qed.

Lemma assign_key_object props key v : ∃ props', assign_key (Obj props) key v = Obj props'.
Proof.
  unfold assign_key. destruct (String.eqb _ _); by eexists.
Qed.

(** Collecting a list of attributes, none of them [null] or [undefined],
    changes nothing in the world and gives an object in which a name reads
    as the last value listed for it. *)
Lemma collect_attributes_lookup {S} (items : list value) props n (w : world S) :
  Forall defined items → n ≠ "__proto__" →
  ∃ props',
    CognitoService.collect_attributes items (Obj props) w = (inr (Obj props'), w)
    ∧ get (Obj props') n
      = fold_left (λ found attr,
                     if String.eqb (to_string (get attr "Name")) n
                     then get attr "Value" else found)
                  items (get (Obj props) n).
Proof.
  intros Hitems Hn. revert props.
  induction Hitems as [|attr rest [Hu Hnull] _ IH]; intros props.
  - by exists props.
  - cbn [CognitoService.collect_attributes fold_left]. unfold bind at 1. construct.
    assert (Hread : read (St:=S) attr "Name" w = (inr (get attr "Name"), w))
      by (destruct attr; done).
    rewrite Hread.
    destruct (assign_key_object props (get attr "Name") (get attr "Value"))
      as [props1 Hobj].
    destruct (IH props1) as (props' & Hrun & Hget).
    exists props'. rewrite Hobj. split; [exact Hrun|].
    rewrite Hget, <- Hobj. by rewrite get_assign_key.
Qed.

(** When the directory answers [AdminGetUser] with a list of attributes,
    [getUserInfo] succeeds and, for every name in the list, its
    [attributes] object holds the value of the last attribute so named. *)
Theorem getUserInfo_attributes {St} `{!Client St} cfg (username : value)
    (w : world St) out d' items n :
  client_send (getUser cfg username) (directory w) = (inr out, d') →
  get out "UserAttributes" = Arr items →
  Forall defined items →
  n ∈ map (λ attr, to_string (get attr "Name")) items →
  n ≠ "__proto__" →
  ∃ result,
    fst (CognitoService.getUserInfo cfg username w) = inr result
    ∧ get result "success" = Bool true
    ∧ get (get result "user") "username" = get out "Username"
    ∧ get (get (get result "user") "attributes") n = attribute_named n items.
Proof.
  intros Hsend Hattrs Hitems _ Hn.
  unfold CognitoService.getUserInfo, try_catch, bind, send. construct.
  fold (getUser cfg username). rewrite Hsend, Hattrs.
  cbn [CognitoService.attributes_of].
  destruct (collect_attributes_lookup items [] n
              (World d' (sent w ++ [getUser cfg username])%list) Hitems Hn)
    as (props' & Hrun & Hget).
  rewrite Hrun. eexists. split; [reflexivity|]. repeat split.
  cbn [get lookup_prop String.eqb Ascii.eqb Bool.eqb]. exact Hget.
Qed.

Lemma getUserInfo_attributes_witness :
  ∃ result,
    fst (CognitoService.getUserInfo cfg0 (Str "alice") (World [inr alice_record] []))
    = inr result
    ∧ get result "success" = Bool true
    ∧ get (get result "user") "username" = get alice_record "Username"
    ∧ get (get (get result "user") "attributes") "email"
      = attribute_named "email" alice_attributes.
Proof.
  apply (getUserInfo_attributes cfg0 (Str "alice") (World [inr alice_record] [])
           alice_record [] alice_attributes "email").
  - reflexivity.
  - reflexivity.
  - repeat constructor; discriminate.
  - vm_compute. apply list_elem_of_here.
  - discriminate.
Defined.

(** A user the directory does not know is reported as a result, not as an
    error, and the route answers 404 'User not found'; any other refusal
    of the directory is thrown on and answered 500. *)
Theorem unknown_user_is_404 {St} `{!Client St} cfg (user : value)
    (w : world St) err d' :
  client_send (getUser cfg (get user "username")) (directory w) = (inl err, d') →
  (name err = "UserNotFoundException" →
   fst (CognitoService.getUserInfo cfg (get user "username") w)
     = inr (Obj [("success", Bool false); ("error", Str "User not found")])
   ∧ fst (App.auth_user cfg user w)
     = inr (Response 404 (Obj [("error", Str "User not found")]) None)
   ∧ fst (App.users_profile cfg user w)
     = inr (Response 404 (Obj [("error", Str "User not found")]) None))
  ∧ (name err ≠ "UserNotFoundException" →
     fst (CognitoService.getUserInfo cfg (get user "username") w)
       = inl (Error "Error" ("Failed to get user info: " ++ message err))
     ∧ fst (App.auth_user cfg user w)
       = inr (Response 500 (Obj [
                ("error", Str ("Failed to get user info: " ++ message err)) ]) None)).
Proof.
  intros Hsend.
  assert (Hsvc : CognitoService.getUserInfo cfg (get user "username") w
    = (if String.eqb (name err) "UserNotFoundException"
       then inr (Obj [("success", Bool false); ("error", Str "User not found")])
       else inl (Error "Error" ("Failed to get user info: " ++ message err)),
       World d' (sent w ++ [getUser cfg (get user "username")])%list)).
  { unfold CognitoService.getUserInfo, try_catch, bind, send. construct.
    fold (getUser cfg (get user "username")). rewrite Hsend.
    by destruct (String.eqb (name err) "UserNotFoundException"). }
  unfold App.auth_user, App.users_profile, try_catch, bind. construct. rewrite Hsvc.
  split.
  - intros ->. repeat split.
  - intros Hne. destruct (String.eqb_spec (name err) "UserNotFoundException");
      [done|]. repeat split.
Qed.

Lemma unknown_user_is_404_witness :
  fst (App.auth_user cfg0 (Obj [("username", Str "ghost")])
         (World [inl Directory.user_not_found] []))
  = inr (Response 404 (Obj [("error", Str "User not found")]) None).
Proof.
  refine (proj1 (proj2 (proj1 (unknown_user_is_404 cfg0 (Obj [("username", Str "ghost")])
            (World [inl Directory.user_not_found] [])
            Directory.user_not_found [] _) _))).
  - reflexivity.
  - reflexivity.
Defined.

(** ** MFA status and disabling *)

(** When the directory lists [SOFTWARE_TOKEN_MFA] among the user's MFA
    settings, [getMFAStatus] reports MFA as enabled and sends nothing but
    the query: no new secret is associated. *)
Theorem getMFAStatus_enabled_does_not_reassociate {St} `{!Client St} cfg
    (username : value) (w : world St) out d' settings :
  client_send (getUser cfg username) (directory w) = (inr out, d') →
  get out "UserMFASettingList" = Arr settings →
  arr_includes settings "SOFTWARE_TOKEN_MFA" = true →
  CognitoService.getMFAStatus cfg username w
  = (inr (Obj [("success", Bool true);
               ("enabled", Bool true);
               ("message", Str "MFA is already enabled")]),
     World d' (sent w ++ [getUser cfg username])%list).
Proof.
  intros Hsend Hlist Hin.
  unfold CognitoService.getMFAStatus, try_catch, bind, send. construct.
  fold (getUser cfg username). rewrite Hsend, Hlist. cbn [truthy].
  unfold ret. by rewrite Hin.
Qed.

Lemma getMFAStatus_enabled_does_not_reassociate_witness :
  CognitoService.getMFAStatus cfg0 (Str "bob")
    (World [inr (Obj [("UserMFASettingList", Arr [Str "SOFTWARE_TOKEN_MFA"])])] [])
  = (inr (Obj [("success", Bool true);
               ("enabled", Bool true);
               ("message", Str "MFA is already enabled")]),
     World [] [getUser cfg0 (Str "bob")]).
Proof.
  apply (getMFAStatus_enabled_does_not_reassociate cfg0 (Str "bob")
           (World [inr (Obj [("UserMFASettingList", Arr [Str "SOFTWARE_TOKEN_MFA"])])] [])
           (Obj [("UserMFASettingList", Arr [Str "SOFTWARE_TOKEN_MFA"])]) []
           [Str "SOFTWARE_TOKEN_MFA"]); reflexivity.
Defined.

(** When MFA is not reported as enabled, [getMFAStatus] cannot hand out
    setup data: the class of the association command is not among
    [CognitoCommands]. So the method sends the user query and nothing
    else, and its result is either 'MFA is already enabled' or a failure;
    with no MFA settings in the directory's answer it is the failure of
    the constructor. *)
Theorem getMFAStatus_never_returns_setup_data {St} `{!Client St} cfg
    (username : value) (w : world St) :
  sent (snd (CognitoService.getMFAStatus cfg username w))
    = (sent w ++ [getUser cfg username])%list
  ∧ (fst (CognitoService.getMFAStatus cfg username w)
       = inr (Obj [("success", Bool true);
                   ("enabled", Bool true);
                   ("message", Str "MFA is already enabled")])
     ∨ ∃ msg, fst (CognitoService.getMFAStatus cfg username w)
              = inr (Obj [("success", Bool false); ("error", Str msg)]))
  ∧ (∀ out d',
       client_send (getUser cfg username) (directory w) = (inr out, d') →
       truthy (get out "UserMFASettingList") = false →
       CognitoService.getMFAStatus cfg username w
       = (inr (Obj [("success", Bool false);
                    ("error", Str "CognitoCommands.AdminAssociateSoftwareTokenCommand is not a constructor")]),
          World d' (sent w ++ [getUser cfg username])%list)).
Proof.
  unfold CognitoService.getMFAStatus, try_catch, bind, send, ret, throw. construct.
  fold (getUser cfg username).
  destruct (client_send (getUser cfg username) (directory w)) as [[err|out] d'].
  - split; [reflexivity|]. split; [right; by eexists|]. intros out d'' [=].
  - destruct (truthy (get out "UserMFASettingList")) eqn:Hsettings.
    + split; [|split].
      * destruct (get out "UserMFASettingList") as [| | | | |items|]; try done.
        -- by destruct (str_includes _ _).
        -- by destruct (arr_includes _ _).
      * destruct (get out "UserMFASettingList") as [| | | | |items|];
          try (right; by eexists).
        -- destruct (str_includes _ _); [by left|right; by eexists].
        -- destruct (arr_includes _ _); [by left|right; by eexists].
      * intros out' d'' [= <- <-]. by rewrite Hsettings.
    + split; [reflexivity|]. split; [right; by eexists|].
      by intros out' d'' [= <- <-] _.
Qed.

Lemma getMFAStatus_never_returns_setup_data_witness :
  CognitoService.getMFAStatus cfg0 (Str "alice") (World [inr (Obj [])] [])
  = (inr (Obj [("success", Bool false);
               ("error", Str "CognitoCommands.AdminAssociateSoftwareTokenCommand is not a constructor")]),
     World [] [getUser cfg0 (Str "alice")]).
Proof.
  apply (proj2 (proj2 (getMFAStatus_never_returns_setup_data cfg0 (Str "alice")
                         (World [inr (Obj [])] [])))
               (Obj []) []); reflexivity.
Defined.

(** Without a setup secret [verifyMFA] constructs a command of a class
    that [CognitoCommands] does not export: it fails before it sends
    anything. [disableMFA], which verifies the code that way first,
    therefore never sends the preference command: it returns the failure
    and leaves the world as it was. *)
Theorem disableMFA_never_reaches_directory {St} `{!Client St} cfg
    (username code : string) (secret : value) (w : world St) :
  truthy secret = false →
  CognitoService.verifyMFA cfg username code secret w
  = (inr (Obj [("success", Bool false);
               ("error", Str "CognitoCommands.AdminVerifySoftwareTokenCommand is not a constructor")]),
     w)
  ∧ CognitoService.disableMFA cfg username code w
    = (inr (Obj [("success", Bool false);
                 ("error", Str "CognitoCommands.AdminVerifySoftwareTokenCommand is not a constructor")]),
       w).
Proof.
  intros Hsecret. split; [|reflexivity].
  unfold CognitoService.verifyMFA.
  assert (Hdefault : truthy match secret with Undefined => Null | s => s end = false)
    by (by destruct secret).
  unfold try_catch, bind. by rewrite Hdefault.
Qed.

Lemma disableMFA_never_reaches_directory_witness :
  CognitoService.disableMFA cfg0 "bob" "123456" (World d0 [])
  = (inr (Obj [("success", Bool false);
               ("error", Str "CognitoCommands.AdminVerifySoftwareTokenCommand is not a constructor")]),
     World d0 []).
Proof.
  apply (disableMFA_never_reaches_directory cfg0 "bob" "123456" Null (World d0 [])).
  reflexivity.
Defined.

(** ** Groups and users in the directory *)

(** The methods that manage groups and list users construct commands of
    classes that [CognitoCommands] does not export. Each of them returns
    the failure of the constructor, for every input and directory, and
    sends nothing. *)
Theorem group_methods_never_reach_directory {St} `{!Client St} cfg
    (username : string) (groupName limit paginationToken : value) (w : world St) :
  let failure (class : string) : (error + value) * world St :=
    (inr (Obj [("success", Bool false);
               ("error", Str ("CognitoCommands." ++ class
                                ++ " is not a constructor"))]), w) in
  CognitoService.listGroupsForUser cfg username w
    = failure "AdminListGroupsForUserCommand"
  ∧ CognitoService.addUserToGroup cfg username groupName w
    = failure "AdminAddUserToGroupCommand"
  ∧ CognitoService.removeUserFromGroup cfg username groupName w
    = failure "AdminRemoveUserFromGroupCommand"
  ∧ CognitoService.listUsers cfg limit paginationToken w
    = failure "ListUsersCommand".
Proof. repeat split. Qed.

(** ** Tokens and the guards of the complete application *)

(** Within 24 hours of issuance, [verifyToken] returns for an issued token
    the user name and the email it was issued with, an empty group list,
    and the user name again as [userId], whatever [userId] was passed to
    [generateJWT]. *)
Theorem verifyToken_of_issued (e e' : env) (userData : value) (u : string) :
  get userData "username" = Str u → u ≠ "" →
  now_seconds e' ≤ now_seconds e + 86400 →
  CognitoService.verifyToken e' (CognitoService.generateJWT e userData)
  = Obj [("success", Bool true);
         ("user", Obj [
            ("userId", Str u);
            ("username", Str u);
            ("email", match get userData "email" with
                      | Undefined => Undefined
                      | v => json v
                      end);
            ("groups", Arr []) ])].
Proof.
  intros Hname Hu Hfresh.
  pose proof (issued_claim e userData) as Hclaim.
  destruct (CognitoService.generateJWT e userData) as [raw|claims sig] eqn:Htoken.
  { unfold CognitoService.generateJWT, Jwt.sign in Htoken. discriminate. }
  rewrite verifyToken_cases. cbn [Jwt.decode] in Hclaim.
  rewrite !Hclaim. cbn [String.eqb Ascii.eqb Bool.eqb]. rewrite Hname.
  cbv beta iota. change (json (Str u)) with (Str u).
  change (24 * 60 * 60) with 86400.
  rewrite lt_num_Num. unfold JS.either. cbn [truthy].
  destruct (Z.ltb_spec (now_seconds e + 86400) (now_seconds e')); [lia|].
  rewrite andb_false_r.
  destruct (String.eqb_spec u ""); [done|]. reflexivity.
Qed.

Lemma verifyToken_of_issued_witness :
  CognitoService.verifyToken e0
    (CognitoService.generateJWT e0
       (Obj [("userId", Num 42); ("username", Str "alice")]))
  = Obj [("success", Bool true);
         ("user", Obj [("userId", Str "alice");
                       ("username", Str "alice");
                       ("email", Undefined);
                       ("groups", Arr []) ])].
Proof.
  apply (verifyToken_of_issued e0 e0
           (Obj [("userId", Num 42); ("username", Str "alice")]) "alice").
  - reflexivity.
  - discriminate.
  - vm_compute. discriminate.
Defined.

(** For a request whose verified claims carry ['cognito:groups'] as a list
    of group names, [authorizeGroup] lets it through exactly when the
    required group is in the list, and answers 403 otherwise. *)
Theorem authorizeGroup_allows_iff_listed (requiredGroup : string) (user : value)
    (groups : list string) :
  get user "cognito:groups" = Strs groups →
  (authorizeGroup requiredGroup user = Next user ↔ requiredGroup ∈ groups)
  ∧ (requiredGroup ∉ groups →
     authorizeGroup requiredGroup user
     = json_error 403 "Access denied: insufficient group privileges").
Proof.
  intros Hclaim. unfold authorizeGroup. rewrite Hclaim.
  cbn [Strs JS.either truthy].
  destruct (arr_includes (map Str groups) requiredGroup) eqn:Hin; cbn [negb].
  - apply arr_includes_Strs in Hin. split; [done|]. by intros Hno.
  - assert (Hno : requiredGroup ∉ groups).
    { intros Hg. apply arr_includes_Strs in Hg. congruence. }
    split; [|done]. split; [discriminate|done].
Qed.

Lemma authorizeGroup_allows_iff_listed_witness :
  authorizeGroup "Admin" (Obj [("username", Str "root");
                               ("cognito:groups", Strs ["User"; "Admin"])])
  = Next (Obj [("username", Str "root"); ("cognito:groups", Strs ["User"; "Admin"])]).
Proof.
  apply (authorizeGroup_allows_iff_listed "Admin"
           (Obj [("username", Str "root"); ("cognito:groups", Strs ["User"; "Admin"])])
           ["User"; "Admin"]).
  - reflexivity.
  - apply list_elem_of_further, list_elem_of_here.
Defined.

(** A request passes the guard chain of the administrative routes only
    with a token signed with the process key whose claims have a user name
    and name the required group (in a list, or inside a string claim). *)
Theorem admin_guard_passes_only_with_group (e : env) (requiredGroup : string)
    (bearer : option Jwt.token) (user : value) :
  App.admin_guard e requiredGroup bearer = Next user →
  ∃ t,
    bearer = Some t
    ∧ user = Jwt.decode t
    ∧ Jwt.signed_with (JWT_SECRET e) t = true
    ∧ truthy (get user "username") = true
    ∧ match get user "cognito:groups" with
      | Arr items => arr_includes items requiredGroup = true
      | Str s => str_includes requiredGroup s = true
      | _ => False
      end.
Proof.
  unfold App.admin_guard. intros Hguard.
  destruct bearer as [t|]; [|discriminate].
  destruct (authenticateToken e (Some t)) as [u|r|err] eqn:Hauth; try discriminate.
  apply authenticateToken_next in Hauth as (Hdec & Hsig & Hname & _).
  exists t. unfold authorizeGroup in Hguard.
  assert (Huser : u = user ∧
            match get u "cognito:groups" with
            | Arr items => arr_includes items requiredGroup = true
            | Str s => str_includes requiredGroup s = true
            | _ => False
            end).
  { unfold JS.either in Hguard.
    destruct (get u "cognito:groups") as [| |b|n|s|items|props]; cbn [truthy] in Hguard.
    - discriminate.
    - discriminate.
    - destruct b; discriminate.
    - destruct (negb (n =? 0)); discriminate.
    - destruct (negb (String.eqb s "")).
      + destruct (str_includes requiredGroup s); [|discriminate].
        by inversion Hguard.
      + discriminate.
    - destruct (arr_includes items requiredGroup); [|discriminate].
      by inversion Hguard.
    - discriminate. }
  destruct Huser as [<- Hgroup]. done.
Qed.

Lemma admin_guard_passes_only_with_group_witness :
  ∃ t,
    Some (Jwt.sign [("username", Str "root"); ("cognito:groups", Strs ["Admin"])]
                   "your-secret-key") = Some t
    ∧ Obj [("username", Str "root"); ("cognito:groups", Strs ["Admin"])] = Jwt.decode t
    ∧ Jwt.signed_with (JWT_SECRET e0) t = true
    ∧ truthy (get (Obj [("username", Str "root"); ("cognito:groups", Strs ["Admin"])])
                "username") = true
    ∧ match get (Obj [("username", Str "root"); ("cognito:groups", Strs ["Admin"])])
              "cognito:groups" with
      | Arr items => arr_includes items "Admin" = true
      | Str s => str_includes "Admin" s = true
      | _ => False
      end.
Proof.
  apply (admin_guard_passes_only_with_group e0 "Admin").
  reflexivity.
Defined.

(** ** The local application *)

(** The local login answers a failing query, an unknown user and a wrong
    password alike, with 401 'Invalid credentials', and hands out a token
    when the row is found and the password matches its hash. When
    [bcrypt.compare] rejects for the row of an existing user (as
    [bcryptjs] does for a password that is not a string, a missing one
    for instance), the request is left without an answer, while the same
    request for an unknown user is answered 401. *)
Theorem local_login_outcomes (e : env)
    (db_get : value → error + option LocalApp.user_row)
    (bcrypt_compare : value → string → error + bool) (username password : value) :
  let outcome := LocalApp.login e db_get bcrypt_compare username password in
  let refused : error + response :=
    inr (Response 401 (Obj [("error", Str "Invalid credentials")]) None) in
  ((∀ user, db_get username ≠ inr (Some user)) → outcome = refused)
  ∧ (∀ user, db_get username = inr (Some user) →
       (bcrypt_compare password (LocalApp.password_hash user) = inr false →
        outcome = refused)
       ∧ (bcrypt_compare password (LocalApp.password_hash user) = inr true →
          ∃ answer, outcome = inr answer ∧ status answer = 200 ∧ token answer ≠ None)
       ∧ (∀ err, bcrypt_compare password (LocalApp.password_hash user) = inl err →
          outcome = inl err)).
Proof.
  intros outcome refused. unfold outcome, refused, LocalApp.login.
  destruct (db_get username) as [err|[user|]] eqn:Hdb.
  - split; [done|]. intros user [=].
  - split; [intros Hnone; by destruct (Hnone user)|].
    intros user' [= <-]. repeat split.
    + by intros ->.
    + intros ->. by eexists.
    + by intros err ->.
  - split; [done|]. intros user [=].
Qed.

Lemma local_login_outcomes_witness :
  LocalApp.login e0 admin_only compare_by_prefix (Str "admin") Undefined
    = inl (Error "Error" "Illegal arguments: undefined, string")
  ∧ LocalApp.login e0 admin_only compare_by_prefix (Str "nobody") Undefined
    = inr (Response 401 (Obj [("error", Str "Invalid credentials")]) None).
Proof.
  split.
  - apply (proj2 (local_login_outcomes e0 admin_only compare_by_prefix
                    (Str "admin") Undefined) admin_row); reflexivity.
  - apply (proj1 (local_login_outcomes e0 admin_only compare_by_prefix
                    (Str "nobody") Undefined)).
    intros user. discriminate.
Defined.

Lemma local_token_claim (payload : list (string * value)) secret clock k :
  NoDup (map fst payload) → "iat" ∉ map fst payload → "exp" ∉ map fst payload →
  get (Jwt.decode (sign_expiresIn_24h payload secret clock)) k
  = if String.eqb k "iat" then Num clock
    else if String.eqb k "exp" then Num (clock + 24 * 60 * 60)
    else match lookup_prop payload k with
         | Undefined => Undefined
         | v => json v
         end.
Proof.
  intros Hnd Hiat Hexp. unfold sign_expiresIn_24h, Jwt.sign, Jwt.decode, get.
  rewrite lookup_serialised.
  2:{ rewrite map_app. apply NoDup_app. split; [done|]. split.
      - intros x Hx Hx'. cbn in Hx'.
        apply elem_of_cons in Hx' as [-> | Hx']; [done|].
        apply list_elem_of_singleton in Hx' as ->. done.
      - cbn. apply NoDup_cons. split; [|apply NoDup_singleton].
        intros H. apply list_elem_of_singleton in H. discriminate. }
  assert (Happ : ∀ l, lookup_prop (payload ++ l) k
                      = match lookup_prop payload k with
                        | Undefined =>
                            if bool_decide (k ∈ map fst payload) then Undefined
                            else lookup_prop l k
                        | v => v
                        end).
  { intros l. clear Hnd Hiat Hexp. induction payload as [|[k' v] rest IH]; cbn.
    - rewrite bool_decide_eq_false_2 by apply not_elem_of_nil. done.
    - destruct (String.eqb_spec k' k) as [->|Hne].
      + rewrite bool_decide_eq_true_2 by apply list_elem_of_here. by destruct v.
      + rewrite IH. destruct (lookup_prop rest k); try done.
        destruct (decide (k ∈ map fst rest)) as [Hin|Hin].
        * rewrite !bool_decide_eq_true_2; [done| |done].
          by apply list_elem_of_further.
        * rewrite !bool_decide_eq_false_2; [done| |done].
          intros H. apply elem_of_cons in H as [?|?]; congruence. }
  rewrite Happ. cbn [lookup_prop].
  destruct (String.eqb_spec k "iat") as [->|Hk1].
  { assert (Hnone : lookup_prop payload "iat" = Undefined).
    { clear -Hiat. induction payload as [|[k' v] rest IH]; [done|].
      cbn in *. apply not_elem_of_cons in Hiat as [Hne Hiat].
      destruct (String.eqb_spec k' "iat"); [congruence|]. by apply IH. }
    rewrite Hnone. by rewrite bool_decide_eq_false_2. }
  destruct (String.eqb_spec k "exp") as [->|Hk2].
  { assert (Hnone : lookup_prop payload "exp" = Undefined).
    { clear -Hexp. induction payload as [|[k' v] rest IH]; [done|].
      cbn in *. apply not_elem_of_cons in Hexp as [Hne Hexp].
      destruct (String.eqb_spec k' "exp"); [congruence|]. by apply IH. }
    rewrite Hnone. by rewrite bool_decide_eq_false_2. }
  destruct (String.eqb_spec "iat" k); [congruence|].
  destruct (String.eqb_spec "exp" k); [congruence|].
  destruct (lookup_prop payload k); try done.
  by destruct (bool_decide _).
Qed.

(** After a local login, for the next 24 hours, what the guard chain
    [authenticateToken, requireGroup] decides for the token depends only
    on the groups the in-process store holds for the row's user name: the
    request passes exactly when one of the allowed groups is among them.
    The [role] column of the row plays no part. *)
Theorem local_token_passes_by_store_groups (e e' : env)
    (db_get : value → error + option LocalApp.user_row)
    (bcrypt_compare : value → string → error + bool) (username password : value)
    (user : LocalApp.user_row)
    (allowedGroups : CognitoGroups.allowed) (m : CognitoGroups.store) :
  db_get username = inr (Some user) →
  bcrypt_compare password (LocalApp.password_hash user) = inr true →
  LocalApp.username user ≠ "" →
  JWT_SECRET e' = JWT_SECRET e →
  now_seconds e' < now_seconds e + 86400 →
  ∃ answer,
    LocalApp.login e db_get bcrypt_compare username password = inr answer
    ∧ ((∃ user', LocalApp.group_guard e' allowedGroups m (token answer) = Next user')
       ↔ ∃ g, g ∈ CognitoGroups.groupsArray allowedGroups
              ∧ g ∈ CognitoGroups.getUserGroups m (Str (LocalApp.username user))).
Proof.
  intros Hdb Hpw Hname Hkey Hfresh.
  unfold LocalApp.login. rewrite Hdb, Hpw. cbn [negb].
  eexists. split; [reflexivity|]. cbn [token].
  set (payload := [("userId", Num (LocalApp.id user));
                   ("username", Str (LocalApp.username user));
                   ("role", LocalApp.role user)]).
  set (t := sign_expiresIn_24h payload (JWT_SECRET e) (now_seconds e)).
  assert (Hclaim : ∀ k, get (Jwt.decode t) k
            = if String.eqb k "iat" then Num (now_seconds e)
              else if String.eqb k "exp" then Num (now_seconds e + 24 * 60 * 60)
              else match lookup_prop payload k with
                   | Undefined => Undefined
                   | v => json v
                   end).
  { intros k. apply local_token_claim; cbn.
    - refine (bool_decide_unpack _ _). vm_compute. exact I.
    - intros H. repeat (apply elem_of_cons in H as [H|H]; [discriminate|]).
      by apply not_elem_of_nil in H.
    - intros H. repeat (apply elem_of_cons in H as [H|H]; [discriminate|]).
      by apply not_elem_of_nil in H. }
  assert (Hauth : authenticateToken e' (Some t) = Next (Jwt.decode t)).
  { pose proof (Hclaim "nbf") as Hnbf. pose proof (Hclaim "exp") as Hexp.
    pose proof (Hclaim "username") as Huser.
    cbn [String.eqb Ascii.eqb Bool.eqb payload lookup_prop] in Hnbf, Hexp, Huser.
    assert (Hrole : lookup_prop [("role", LocalApp.role user)] "nbf" = Undefined)
      by reflexivity.
    assert (Hsig : Jwt.signed_with (JWT_SECRET e') t = true).
    { rewrite Hkey. unfold t, sign_expiresIn_24h, Jwt.sign, Jwt.signed_with.
      by apply bool_decide_eq_true. }
    unfold authenticateToken.
    assert (Hjws : ∃ claims sig, t = Jwt.Jws claims sig) by (by eexists _, _).
    destruct Hjws as (claims & sig & Ht). rewrite Ht in *.
    unfold Jwt.verify. rewrite Hsig. cbn [negb Jwt.decode] in *.
    rewrite Hnbf, Hexp. change (24 * 60 * 60) with 86400.
    destruct (Z.leb_spec (now_seconds e + 86400) (now_seconds e')); [lia|].
    rewrite Huser. unfold JS.falsy. cbn [json truthy].
    by destruct (String.eqb_spec (LocalApp.username user) ""). }
  unfold LocalApp.group_guard. rewrite Hauth.
  pose proof (Hclaim "username") as Huser.
  cbn [String.eqb Ascii.eqb Bool.eqb payload lookup_prop json] in Huser.
  unfold CognitoGroups.requireGroup. rewrite Huser.
  unfold JS.falsy. cbn [truthy].
  destruct (String.eqb_spec (LocalApp.username user) ""); [done|]. cbn [negb].
  rewrite <- existsb_member.
  destruct (existsb _ _); cbn [negb].
  - split; [done|]. intros _. by eexists.
  - split; [|done]. intros [u' H]. discriminate.
Qed.

Lemma local_token_passes_by_store_groups_witness :
  ∃ answer,
    LocalApp.login e0 admin_only compare_by_prefix (Str "admin") (Str "admin123")
      = inr answer
    ∧ ((∃ user', LocalApp.group_guard e0 (CognitoGroups.Single "Admin")
                   CognitoGroups.initial (token answer)
                 = Next user')
       ↔ ∃ g, g ∈ CognitoGroups.groupsArray (CognitoGroups.Single "Admin")
              ∧ g ∈ CognitoGroups.getUserGroups CognitoGroups.initial
                      (Str (LocalApp.username admin_row))).
Proof.
  apply (local_token_passes_by_store_groups e0 e0 admin_only compare_by_prefix
           (Str "admin") (Str "admin123") admin_row (CognitoGroups.Single "Admin")
           CognitoGroups.initial).
  - reflexivity.
  - reflexivity.
  - discriminate.
  - reflexivity.
  - vm_compute. reflexivity.
Defined.

(** ** Provisioning links *)

Lemma hex_digit_unreserved (n : N) : (n < 16)%N → unreserved (hex_digit n) = true.
Proof.
  intros Hn.
  destruct n as [|p]; [reflexivity|].
  do 4 (destruct p as [p|p|]; try reflexivity); lia.
Qed.

(** [encodeURIComponent] leaves only unreserved characters and percent
    signs: no [?], [&], [=], [#], [/] or [:] of its argument survives. *)
Lemma encodeURIComponent_characters (s : string) (c : Ascii.ascii) :
  In c (String.list_ascii_of_string (encodeURIComponent s)) →
  unreserved c = true ∨ c = percent.
Proof.
  induction s as [|a rest IH]; cbn [encodeURIComponent]; [by intros []|].
  destruct (unreserved a) eqn:Ha.
  - cbn. intros [<-|Hc]; [by left|by apply IH].
  - cbn. intros [<-|[<-|[<-|Hc]]].
    + by right.
    + left. apply hex_digit_unreserved.
      pose proof (N.Div0.div_lt_upper_bound (Ascii.N_of_ascii a) 16 16) as Hdiv.
      apply Hdiv. pose proof (Ascii.N_ascii_bounded a). lia.
    + left. apply hex_digit_unreserved. apply N.mod_lt. lia.
    + by apply IH.
Qed.

(** The provisioning link of [generateQRCode] is the fixed prefix, the
    escaped user name, and the query; the user name contributes only
    unreserved characters and percent signs, so it cannot cut the label
    short or add a parameter. (The secret is inserted as it is.) *)
Theorem generateQRCode_escapes_username (username secret : value) :
  CognitoService.generateQRCode username secret
  = "otpauth://totp/Convertool:" ++ encodeURIComponent (to_string username)
      ++ "?secret=" ++ to_string secret
      ++ "&issuer=Convertool&algorithm=SHA1&digits=6&period=30"
  ∧ ∀ c, In c (String.list_ascii_of_string (encodeURIComponent (to_string username))) →
         unreserved c = true ∨ c = percent.
Proof.
  split; [reflexivity|]. apply encodeURIComponent_characters.
Qed.

(** In the link of [generateQRCodeURL] the whole label, application name
    and user name, is escaped, the colon between them included. *)
Theorem generateQRCodeURL_escapes_label (username secretCode : value) :
  MFAService.generateQRCodeURL username secretCode
  = "otpauth://totp/MediaProcessor%3A" ++ encodeURIComponent (to_string username)
      ++ "?secret=" ++ to_string secretCode ++ "&issuer=MediaProcessor".
Proof.
  unfold MFAService.generateQRCodeURL.
  assert (Happ : ∀ s t, encodeURIComponent (s ++ t)
                        = encodeURIComponent s ++ encodeURIComponent t).
  { intros s t. induction s as [|a s IH]; [done|].
    change (String a s ++ t) with (String a (s ++ t)).
    assert (Hcons : ∀ r, encodeURIComponent (String a r)
              = if unreserved a then String a (encodeURIComponent r)
                else String percent
                       (String (hex_digit (Ascii.N_of_ascii a / 16))
                          (String (hex_digit (Ascii.N_of_ascii a mod 16))
                             (encodeURIComponent r)))) by reflexivity.
    rewrite !Hcons, IH. by destruct (unreserved a). }
  rewrite !Happ. reflexivity.
Qed.

(** ** The MFA service *)

(** The methods of the MFA service never return a failure: they return a
    result whose [success] is [true], or throw a plain [Error]. *)
Theorem mfa_service_succeeds_or_throws {St} `{!Client St} cfg (w : world St)
    (username password : string)
    (accessToken userCode session enabled user mfaCode : value) :
  let outcomes :=
    [ fst (MFAService.initiateAuthWithMFA cfg username password w);
      fst (MFAService.associateSoftwareToken accessToken w);
      fst (MFAService.verifySoftwareToken accessToken userCode session w);
      fst (MFAService.setUserMFAPreference accessToken enabled w);
      fst (MFAService.respondToMFAChallenge cfg user mfaCode session w) ] in
  ∀ outcome, outcome ∈ outcomes →
    match outcome with
    | inr result => get result "success" = Bool true
    | inl err => name err = "Error"
    end.
Proof.
  intros outcomes outcome Hin. unfold outcomes in Hin.
  unfold MFAService.initiateAuthWithMFA, MFAService.associateSoftwareToken,
    MFAService.verifySoftwareToken, MFAService.setUserMFAPreference,
    MFAService.respondToMFAChallenge, try_catch, bind, send, ret, throw in Hin.
  cbn [new_command property CognitoCommands String.eqb Ascii.eqb Bool.eqb ret] in Hin.
  repeat (apply elem_of_cons in Hin as [->|Hin]);
    [..|by apply not_elem_of_nil in Hin];
    match goal with
    | |- context [client_send ?c ?d] => destruct (client_send c d) as [[err|out] d']
    end;
    cbn; try done.
  by destruct (is_str "SOFTWARE_TOKEN_MFA" (get out "ChallengeName")).
Qed.

(** An answer to the challenge without [AuthenticationResult] still gives a
    result with [success: true]. *)
Lemma mfa_service_succeeds_or_throws_witness :
  ∃ result,
    fst (MFAService.respondToMFAChallenge cfg0 (Str "bob") (Str "000000")
           (Str "session-1") (World [inr (Obj [])] []))
    = inr result
    ∧ get result "AuthenticationResult" = Undefined
    ∧ get result "success" = Bool true.
Proof.
  eexists. split; [reflexivity|]. split; [reflexivity|].
  exact (mfa_service_succeeds_or_throws cfg0 (World [inr (Obj [])] [])
           "bob" "pw" (Str "access") (Str "123456") (Str "session-1")
           (Bool true) (Str "bob") (Str "000000")
           (fst (MFAService.respondToMFAChallenge cfg0 (Str "bob") (Str "000000")
                   (Str "session-1") (World [inr (Obj [])] [])))
           ltac:(do 4 (apply elem_of_cons; right); apply elem_of_cons; left; reflexivity)).
Defined.
